(** * Athlete review: overlay engine of the video player

    A shallow embedding of the overlay logic of the two [VideoPlayer]
    components of the repository:

    - the click-interaction player, [src/components/VideoPlayer/VideoPlayer.tsx]
      (module [Click]);
    - the hover-interaction player, the second copy of the component
      (module [Hover]).

    JavaScript numbers are IEEE 754 binary64 values, so they are embedded as
    Rocq's primitive floats: comparisons, division by zero, [NaN] and the
    signed zeros behave as they do in the source.  A drawing surface is the
    list of primitives painted on it since it was last cleared.

    The component runs on one cooperative event loop.  A run of
    [detectAndDraw] is taken as a whole, from its guards to its last drawing
    call, with the outcome of the [estimatePoses] call it awaits as an input;
    delays are kept as commands, not as time. *)

From Stdlib Require Import Floats ZArith QArith Bool List.
From stdpp Require Import gmap strings list.
Import ListNotations.

Set Warnings "-inexact-float".

Open Scope float_scope.

(** ** The JavaScript values the component computes with *)

Module JS.

(** [!x] is false for a number exactly when it is neither [NaN] nor a zero. *)
Definition truthy (x : float) : bool := negb (is_nan x || is_zero x).

(** An optional number ([score?: number], [videoRef.current?.currentTime]):
    [undefined] is falsy. *)
Definition truthyOpt (x : option float) : bool :=
  match x with
  | Some v => truthy v
  | None => false
  end.

(** [hay.includes(needle)]. *)
Fixpoint includes (hay needle : string) : bool :=
  String.prefix needle hay ||
  match hay with
  | EmptyString => false
  | String _ rest => includes rest needle
  end.

(** The property names every plain object inherits from [Object.prototype]:
    [map[key]] answers them on a map written [{}] even when no entry bears
    them, and assigning to ['__proto__'] replaces the prototype. *)
Definition objectPrototypeKeys : list string :=
  [ "constructor"; "__defineGetter__"; "__defineSetter__"; "hasOwnProperty";
    "__lookupGetter__"; "__lookupSetter__"; "isPrototypeOf";
    "propertyIsEnumerable"; "toString"; "valueOf"; "__proto__";
    "toLocaleString" ].

End JS.

(** ** The [Math] object *)

Module Math.

(** [Math.PI]. *)
Definition PI : float := 0x1.921fb54442d18p+1.

(** [Math.max(...xs)] as ECMAScript defines it: [NaN] if any argument is
    [NaN]; otherwise the running highest value, started at [-Infinity], with
    [+0] ranked above [-0]. *)
Definition max_step (highest n : float) : float :=
  match classify n, classify highest with
  | PZero, NZero => n
  | _, _ => if highest <? n then n else highest
  end.

Definition max (xs : list float) : float :=
  if existsb is_nan xs then nan else fold_left max_step xs neg_infinity.

(** [Math.min(...xs)], dually, started at [+Infinity]. *)
Definition min_step (lowest n : float) : float :=
  match classify n, classify lowest with
  | NZero, PZero => n
  | _, _ => if n <? lowest then n else lowest
  end.

Definition min (xs : list float) : float :=
  if existsb is_nan xs then nan else fold_left min_step xs infinity.

(** [Math.round(x)]: the integer nearest to [x], ties towards [+Infinity];
    [NaN], the infinities, the zeros and the integers are returned as they
    are.  A finite [x] is [±m·2^e]; for [e < 0] the result is
    [floor (x + 1/2)], computed exactly on [Z], and a zero result keeps the
    sign of [x]. *)
Definition round (x : float) : float :=
  match Prim2SF x with
  | S754_finite s m e =>
      if (0 <=? e)%Z then x
      else
        let d := (2 ^ (- e))%Z in
        let z := ((2 * cond_Zopp s (Z.pos m) + d) / (2 * d))%Z in
        SF2Prim (binary_normalize prec emax z 0 s)
  | _ => x
  end.

(** [Math.pow(x, 2)], the only use of [Math.pow] in the component. *)
Definition pow2 (x : float) : float := x * x.

(** The part of [Math] that the host engine approximates. *)
Class Engine := { atan2 : float -> float -> float }.

(** ECMAScript fixes [atan2] on the half-axes: [π/2] above the origin and
    [π] on the negative x-axis, as the engine's nearest numbers. *)
Definition atan2_on_axes `{Engine} : Prop :=
  atan2 1 0 = PI / 2 /\ atan2 0 (-1) = PI.

(** An engine that only knows the axes, where ECMAScript fixes the result:
    [±0] or [±π] for [y = ±0] (by the sign of [x], then of [y]), [±π/2] for
    [x = ±0] and [y] off zero.  It answers [NaN] elsewhere. *)
Definition axisEngine : Engine :=
  {| atan2 := fun y x =>
       if is_nan y || is_nan x then nan
       else if is_zero y then
         match classify x with
         | NZero | NNormal | NSubn | NInf =>
             match classify y with NZero => - PI | _ => PI end
         | _ => y
         end
       else if is_zero x then
         if 0 <? y then PI / 2 else - (PI / 2)
       else nan |}.

End Math.

(** Comparisons against a possibly [undefined] number: [undefined] converts to
    [NaN], so both comparisons are false. *)
Module Cmp.

Definition gt (a : option float) (b : float) : bool :=
  match a with
  | Some v => b <? v
  | None => false
  end.

Definition lt (a : option float) (b : float) : bool :=
  match a with
  | Some v => v <? b
  | None => false
  end.

End Cmp.

(** ** Data model *)

(** [KeypointWithName]: a landmark in detection space.  [score] is optional in
    the detector's type; a [name] that is [undefined] behaves as the empty
    string everywhere the component reads it. *)
Module Keypoint.
Record t := mk { name : string; x : float; y : float; score : option float }.
End Keypoint.

(** A detected pose.  The component checks for missing [keypoints]. *)
Module Pose.
Record t := mk { keypoints : option (list Keypoint.t); score : option float }.
End Pose.

(** The outcome of one [detector.estimatePoses] call. *)
Inductive Estimate :=
| Throws
| Resolved (poses : list Pose.t).

(** What the component reads of the [<video>] element: native size, rendered
    size ([getBoundingClientRect]), and playback state. *)
Module Video.
Record t := mk {
  videoWidth : float;
  videoHeight : float;
  rectWidth : float;
  rectHeight : float;
  paused : bool;
  currentTime : float
}.
End Video.

(** The primitives painted on the overlay canvas.
    - [DimLayer w h]: [fillRect(0, 0, w, h)] in 70%-opaque black;
    - [Spotlight x y w h]: the rectangle filled under [destination-out];
    - [Bone x1 y1 x2 y2]: one stroked skeleton segment;
    - [Marker x y color]: the filled and outlined circle of radius 6;
    - [Tooltip x y name angle]: one [drawJointTooltip] call. *)
Inductive DrawOp :=
| DimLayer (w h : float)
| Spotlight (x y w h : float)
| Bone (x1 y1 x2 y2 : float)
| Marker (x y : float) (color : string)
| Tooltip (x y : float) (name : string) (angle : option float).

(** The compositing layer a primitive belongs to, in the order the design
    prescribes: dimming, skeleton, markers, tooltip. *)
Definition layer (op : DrawOp) : nat :=
  match op with
  | DimLayer _ _ | Spotlight _ _ _ _ => 0
  | Bone _ _ _ _ => 1
  | Marker _ _ _ => 2
  | Tooltip _ _ _ _ => 3
  end.

Definition isDimming (op : DrawOp) : bool := Nat.eqb (layer op) 0.

(** Props, refs and React state that the callbacks close over.  [detector],
    [canvasRef] and [context2d] record whether the object is there. *)
Record Env := mkEnv {
  detector : bool;
  videoRef : option Video.t;
  canvasRef : bool;
  context2d : bool;
  isVideoReady : bool;
  showDimming : bool;
  dimensions : float * float;
  mousePos : float * float
}.

(** What [handleTimeUpdate] does, in order. *)
Inductive Command :=
| VideoPause
| SetIsPaused (b : bool)
| Settle (ms : Z)
| DetectAndDraw.

(** ** Scaling between detection space and display space *)

Section Scaling.
Context {N : Type} (mul div : N -> N -> N).

(** [{ x: x * (toW / fromW), y: y * (toH / fromH) }] *)
Definition scalePoint (toW fromW toH fromH : N) (p : N * N) : N * N :=
  (mul (fst p) (div toW fromW), mul (snd p) (div toH fromH)).

End Scaling.

(** ** Code shared verbatim by the two players *)

Module Overlay.

Definition colors_head : string := "#FF0000".
Definition colors_torso : string := "#00FF00".
Definition colors_arms : string := "#0000FF".
Definition colors_legs : string := "#FFA500".
Definition colors_default : string := "#FFFFFF".

Definition getJointColor (jointName : string) : string :=
  if String.eqb jointName "" then colors_default
  else if JS.includes jointName "nose" || JS.includes jointName "eye"
          || JS.includes jointName "ear" then colors_head
  else if JS.includes jointName "shoulder" || JS.includes jointName "hip"
       then colors_torso
  else if JS.includes jointName "elbow" || JS.includes jointName "wrist"
       then colors_arms
  else if JS.includes jointName "knee" || JS.includes jointName "ankle"
       then colors_legs
  else colors_default.

(** The angle between the segments [b→c] and [b→a], in rounded degrees. *)
Definition cornerAngle `{Math.Engine} (a b c : Keypoint.t) : float :=
  let angle :=
    Math.atan2 (Keypoint.y c - Keypoint.y b) (Keypoint.x c - Keypoint.x b)
    - Math.atan2 (Keypoint.y a - Keypoint.y b) (Keypoint.x a - Keypoint.x b) in
  abs (Math.round (angle * (180 / Math.PI))).

(** [jointName.includes('left') ? 'left' : 'right'] *)
Definition sideOf (jointName : string) : string :=
  if JS.includes jointName "left" then "left" else "right".

Definition calculateJointAngle `{Math.Engine}
    (keypointMap : gmap string Keypoint.t) (jointName : string) : option float :=
  if JS.includes jointName "elbow" then
    let side := sideOf jointName in
    match keypointMap !! (side +:+ "_shoulder"),
          keypointMap !! (side +:+ "_elbow"),
          keypointMap !! (side +:+ "_wrist") with
    | Some shoulder, Some elbow, Some wrist => Some (cornerAngle shoulder elbow wrist)
    | _, _, _ => None
    end
  else if JS.includes jointName "knee" then
    let side := sideOf jointName in
    match keypointMap !! (side +:+ "_hip"),
          keypointMap !! (side +:+ "_knee"),
          keypointMap !! (side +:+ "_ankle") with
    | Some hip, Some knee, Some ankle => Some (cornerAngle hip knee ankle)
    | _, _, _ => None
    end
  else None.

Definition mapToDisplaySpace (videoRef : option Video.t) (x y : float)
    : float * float :=
  match videoRef with
  | None => (x, y)
  | Some video =>
      scalePoint mul div
        (Video.rectWidth video) (Video.videoWidth video)
        (Video.rectHeight video) (Video.videoHeight video) (x, y)
  end.

Definition connections : list (string * string) :=
  [ ("nose", "left_eye"); ("nose", "right_eye");
    ("left_eye", "left_ear"); ("right_eye", "right_ear");
    ("left_shoulder", "right_shoulder");
    ("left_shoulder", "left_elbow");
    ("right_shoulder", "right_elbow");
    ("left_elbow", "left_wrist");
    ("right_elbow", "right_wrist");
    ("left_shoulder", "left_hip");
    ("right_shoulder", "right_hip");
    ("left_hip", "right_hip");
    ("left_hip", "left_knee");
    ("right_hip", "right_knee");
    ("left_knee", "left_ankle");
    ("right_knee", "right_ankle") ].

(** [keypoints.reduce((map, kp) => { if (kp.name) map[kp.name] = kp; ... }, {})]
    The finite map holds the object's own properties; what [map[key]] finds
    on [Object.prototype] (the keys of [JS.objectPrototypeKeys]) is outside
    it, and the names [connections] looks up are none of those. *)
Definition keypointMap (keypoints : list Keypoint.t) : gmap string Keypoint.t :=
  fold_left
    (fun map kp =>
       if String.eqb (Keypoint.name kp) "" then map
       else <[Keypoint.name kp := kp]> map)
    keypoints ∅.

(** One iteration of [connections.forEach] in [drawSkeleton]. *)
Definition drawConnection (videoRef : option Video.t)
    (map : gmap string Keypoint.t) (c : string * string) : list DrawOp :=
  match map !! fst c, map !! snd c with
  | Some startPoint, Some endPoint =>
      if JS.truthyOpt (Keypoint.score startPoint)
         && JS.truthyOpt (Keypoint.score endPoint)
         && Cmp.gt (Keypoint.score startPoint) 0.3
         && Cmp.gt (Keypoint.score endPoint) 0.3
      then
        let startMapped :=
          mapToDisplaySpace videoRef (Keypoint.x startPoint) (Keypoint.y startPoint) in
        let endMapped :=
          mapToDisplaySpace videoRef (Keypoint.x endPoint) (Keypoint.y endPoint) in
        [Bone (fst startMapped) (snd startMapped) (fst endMapped) (snd endMapped)]
      else []
  | _, _ => []
  end.

(** [kp.score && kp.score > 0.3] *)
Definition scoreAbove (kp : Keypoint.t) : bool :=
  JS.truthyOpt (Keypoint.score kp) && Cmp.gt (Keypoint.score kp) 0.3.

(** [!keypoint.score || keypoint.score < 0.3] *)
Definition scoreBelow (kp : Keypoint.t) : bool :=
  negb (JS.truthyOpt (Keypoint.score kp)) || Cmp.lt (Keypoint.score kp) 0.3.

(** The joint marker of a keypoint. *)
Definition marker (videoRef : option Video.t) (keypoint : Keypoint.t) : DrawOp :=
  let mapped :=
    mapToDisplaySpace videoRef (Keypoint.x keypoint) (Keypoint.y keypoint) in
  Marker (fst mapped) (snd mapped) (getJointColor (Keypoint.name keypoint)).

(** The automatic pause: pause the video, record it, let the frame settle
    for 200ms, detect. *)
Definition pauseCycle : list Command :=
  [VideoPause; SetIsPaused true; Settle 200; DetectAndDraw].

(** [handleTimeUpdate], over the component's [pausePoints]. *)
Definition handleTimeUpdate (pausePoints : list float)
    (videoRef : option Video.t) : list Command :=
  match videoRef with
  | None => []
  | Some video =>
      let currentTime := Video.currentTime video in
      if negb (JS.truthy currentTime) then []
      else
        let shouldPause :=
          existsb (fun point => abs (currentTime - point) <? 0.1) pausePoints in
        if shouldPause && negb (Video.paused video)
        then pauseCycle
        else []
  end.

(** The loop of the animation effect over the frames the browser grants it:
    each frame carries what the callbacks read at that moment and the value
    of [Date.now()]; [animate] says whether it dispatches [detectAndDraw] and
    what [lastDrawTime] becomes.  The result lists the times of the
    dispatches. *)
Fixpoint runFrames (animate : Env -> float -> float -> bool * float)
    (frames : list (Env * float)) (lastDrawTime : float) : list float :=
  match frames with
  | [] => []
  | (env, now) :: rest =>
      let step := animate env now lastDrawTime in
      (if fst step then [now] else []) ++ runFrames animate rest (snd step)
  end.

End Overlay.

(** ** The click-interaction player ([VideoPlayer.tsx]) *)

Module Click.

Definition pausePoints : list float := [6; 10].

(** The [clickedJoint] state. *)
Module Joint.
Record t := mk { name : string; angle : option float; x : float; y : float }.
End Joint.

(** The overlay canvas and the React state that the callbacks write. *)
Record State := mkState {
  canvas : list DrawOp;
  currentKeypoints : option (list Keypoint.t);
  clickedJoint : option Joint.t
}.

Definition drawSkeleton (env : Env) (keypoints : list Keypoint.t) : list DrawOp :=
  let keypointMap := Overlay.keypointMap keypoints in
  flat_map (Overlay.drawConnection (videoRef env) keypointMap) Overlay.connections.

Definition applyDimmingEffect (env : Env) (keypoints : list Keypoint.t)
    : list DrawOp :=
  let validKeypoints := List.filter Overlay.scoreAbove keypoints in
  if Nat.eqb (length validKeypoints) 0%nat then []
  else
    let padding := 50 in
    let mappedPoints :=
      map (fun kp => Overlay.mapToDisplaySpace (videoRef env)
                       (Keypoint.x kp) (Keypoint.y kp)) validKeypoints in
    let xs := map fst mappedPoints in
    let ys := map snd mappedPoints in
    let minX := Math.min xs in
    let maxX := Math.max xs in
    let minY := Math.min ys in
    let maxY := Math.max ys in
    [ DimLayer (fst (dimensions env)) (snd (dimensions env));
      Spotlight (minX - padding) (minY - padding)
                (maxX - minX + 2 * padding) (maxY - minY + 2 * padding) ].

(** [keypointsWithName.forEach(keypoint => { if (keypoint.score && ...) ... })] *)
Definition drawMarkers (env : Env) (keypoints : list Keypoint.t) : list DrawOp :=
  flat_map
    (fun keypoint =>
       if Overlay.scoreAbove keypoint
       then [Overlay.marker (videoRef env) keypoint]
       else [])
    keypoints.

(** What [detectAndDraw] paints for a pose, in painting order: the dimming
    (if enabled), the skeleton, the markers. *)
Definition drawOverlay (env : Env) (keypointsWithName : list Keypoint.t)
    : list DrawOp :=
  (if showDimming env then applyDimmingEffect env keypointsWithName else [])
  ++ drawSkeleton env keypointsWithName
  ++ drawMarkers env keypointsWithName.

(** One run of [detectAndDraw], given what [estimatePoses] does if called.
    Assigning [canvas.width] resets the bitmap, and [clearRect] covers the
    whole canvas: both leave it empty. *)
Definition detectAndDraw (env : Env) (estimate : Estimate) (st : State) : State :=
  match videoRef env with
  | Some video =>
      if negb (detector env && canvasRef env && isVideoReady env) then st
      else if negb (context2d env) then
        mkState [] (currentKeypoints st) (clickedJoint st)
      else
        let cleared := mkState [] (currentKeypoints st) (clickedJoint st) in
        if Video.paused video then
          match estimate with
          | Throws => cleared
          | Resolved poses =>
              match poses with
              | [] => mkState [] None (clickedJoint st)
              | pose :: _ =>
                  match Pose.keypoints pose with
                  | None => mkState [] None (clickedJoint st)
                  | Some keypointsWithName =>
                      mkState (drawOverlay env keypointsWithName)
                              (Some keypointsWithName) (clickedJoint st)
                  end
              end
          end
        else cleared
  | None => st
  end.

(** The predicate of [currentKeypoints.find] in [handleCanvasClick]. *)
Definition isHit (env : Env) (clickX clickY : float) (keypoint : Keypoint.t)
    : bool :=
  if Overlay.scoreBelow keypoint then false
  else
    let mapped :=
      Overlay.mapToDisplaySpace (videoRef env)
        (Keypoint.x keypoint) (Keypoint.y keypoint) in
    let distance :=
      sqrt (Math.pow2 (clickX - fst mapped) + Math.pow2 (clickY - snd mapped)) in
    distance <? 15.

(** The value [handleCanvasClick] stores for the joint it found:
    [{ name, angle, x: mapped.x, y: mapped.y }]. *)
Definition jointDetail `{Math.Engine} (env : Env) (keypoints : list Keypoint.t)
    (jointClicked : Keypoint.t) : Joint.t :=
  let mapped :=
    Overlay.mapToDisplaySpace (videoRef env)
      (Keypoint.x jointClicked) (Keypoint.y jointClicked) in
  let keypointMap := Overlay.keypointMap keypoints in
  let angle :=
    Overlay.calculateJointAngle keypointMap (Keypoint.name jointClicked) in
  Joint.mk
    (if String.eqb (Keypoint.name jointClicked) ""
     then "Unknown Joint" else Keypoint.name jointClicked)
    angle (fst mapped) (snd mapped).

(** [handleCanvasClick]; [clickX] and [clickY] are the pointer coordinates
    relative to the canvas ([e.clientX - rect.left], [e.clientY - rect.top]). *)
Definition handleCanvasClick `{Math.Engine} (env : Env) (clickX clickY : float)
    (st : State) : State :=
  match videoRef env, currentKeypoints st with
  | Some video, Some keypoints =>
      if negb (Video.paused video) || negb (canvasRef env) then st
      else
        match find (isHit env clickX clickY) keypoints with
        | Some jointClicked =>
            mkState (canvas st) (currentKeypoints st)
                    (Some (jointDetail env keypoints jointClicked))
        | None => mkState (canvas st) (currentKeypoints st) None
        end
  | _, _ => st
  end.

(** The scale [saveFrameWithOverlays] applies to display-space positions to
    place them on the exported image, which has the native size:
    [tempCanvas.width / skeletonCanvas.width] and likewise for the height. *)
Definition toNativeSpace (nativeW nativeH overlayW overlayH : float)
    (p : float * float) : float * float :=
  scalePoint mul div nativeW overlayW nativeH overlayH p.

Definition handleTimeUpdate : option Video.t -> list Command :=
  Overlay.handleTimeUpdate pausePoints.

(** One [animate] frame: [detectAndDraw] is dispatched when the video is not
    paused, the video is ready, the detector is there and more than
    [1000 / 30] ms have passed since [lastDrawTime]. *)
Definition animate (env : Env) (now lastDrawTime : float) : bool * float :=
  let notPaused :=
    match videoRef env with
    | Some video => negb (Video.paused video)
    | None => true
    end in
  if notPaused && isVideoReady env && detector env then
    if 1000 / 30 <? now - lastDrawTime then (true, now) else (false, lastDrawTime)
  else (false, lastDrawTime).

(** One run of the animation effect; [lastDrawTime] starts at 0. *)
Definition runAnimation (frames : list (Env * float)) : list float :=
  Overlay.runFrames animate frames 0.

End Click.

(** ** The hover-interaction player *)

Module Hover.

Definition pausePoints : list float := [3; 7].

Module Box.
Record t := mk { x : float; y : float; width : float; height : float }.
End Box.

Definition drawSkeleton (env : Env) (keypoints : list Keypoint.t) : list DrawOp :=
  match videoRef env with
  | Some video =>
      if negb (Video.paused video) then []
      else
        let keypointMap := Overlay.keypointMap keypoints in
        flat_map (Overlay.drawConnection (videoRef env) keypointMap)
                 Overlay.connections
  | None => []
  end.

Definition calculateBoundingBox (keypoints : list Keypoint.t) : option Box.t :=
  let validKeypoints := List.filter Overlay.scoreAbove keypoints in
  if Nat.eqb (length validKeypoints) 0%nat then None
  else
    let xs := map Keypoint.x validKeypoints in
    let ys := map Keypoint.y validKeypoints in
    Some (Box.mk (Math.min xs) (Math.min ys)
                 (Math.max xs - Math.min xs) (Math.max ys - Math.min ys)).

Definition applyDimmingEffect (env : Env) (boundingBox : Box.t) : list DrawOp :=
  let topLeft :=
    Overlay.mapToDisplaySpace (videoRef env) (Box.x boundingBox) (Box.y boundingBox) in
  let bottomRight :=
    Overlay.mapToDisplaySpace (videoRef env)
      (Box.x boundingBox + Box.width boundingBox)
      (Box.y boundingBox + Box.height boundingBox) in
  let mapped :=
    Box.mk (fst topLeft) (snd topLeft)
           (fst bottomRight - fst topLeft) (snd bottomRight - snd topLeft) in
  let padding := 50 in
  [ DimLayer (fst (dimensions env)) (snd (dimensions env));
    Spotlight (Box.x mapped - padding) (Box.y mapped - padding)
              (Box.width mapped + padding * 2) (Box.height mapped + padding * 2) ].

(** One iteration of [keypointsWithName.forEach] in [detectAndDraw]. *)
Definition drawKeypoint `{Math.Engine} (env : Env)
    (keypointMap : gmap string Keypoint.t) (keypoint : Keypoint.t) : list DrawOp :=
  if Overlay.scoreBelow keypoint then []
  else
    let mapped :=
      Overlay.mapToDisplaySpace (videoRef env)
        (Keypoint.x keypoint) (Keypoint.y keypoint) in
    match videoRef env with
    | Some video =>
        if Video.paused video then
          let dx := fst (mousePos env) - fst mapped in
          let dy := snd (mousePos env) - snd mapped in
          let distance := sqrt (dx * dx + dy * dy) in
          Overlay.marker (videoRef env) keypoint ::
          (if distance <? 15 then
             [Tooltip (fst mapped) (snd mapped)
                (if String.eqb (Keypoint.name keypoint) ""
                 then "Unknown Joint" else Keypoint.name keypoint)
                (Overlay.calculateJointAngle keypointMap (Keypoint.name keypoint))]
           else [])
        else []
    | None => []
    end.

(** The dimming step that closes each pose's drawing. *)
Definition drawDimming (env : Env) (keypoints : list Keypoint.t) : list DrawOp :=
  if showDimming env then
    match calculateBoundingBox keypoints with
    | Some boundingBox =>
        if (0 <? Box.width boundingBox) && (0 <? Box.height boundingBox)
        then applyDimmingEffect env boundingBox
        else []
    | None => []
    end
  else [].

(** One iteration of [poses.forEach] in [detectAndDraw]. *)
Definition drawPose `{Math.Engine} (env : Env) (pose : Pose.t) : list DrawOp :=
  if negb (JS.truthyOpt (Pose.score pose)) || Cmp.lt (Pose.score pose) 0.3 then []
  else
    match Pose.keypoints pose with
    | None => []
    | Some keypointsWithName =>
        if Nat.eqb (length keypointsWithName) 0%nat then []
        else
          let keypointMap := Overlay.keypointMap keypointsWithName in
          drawSkeleton env keypointsWithName
          ++ flat_map (drawKeypoint env keypointMap) keypointsWithName
          ++ drawDimming env keypointsWithName
    end.

(** One run of [detectAndDraw] on the canvas, given what [estimatePoses]
    does if called. *)
Definition detectAndDraw `{Math.Engine} (env : Env) (estimate : Estimate)
    (canvas : list DrawOp) : list DrawOp :=
  match videoRef env with
  | Some video =>
      if negb (detector env && canvasRef env && isVideoReady env) then canvas
      else if (Video.videoWidth video =? 0) || (Video.videoHeight video =? 0)
      then canvas
      else if negb (context2d env) then []
      else
        match estimate with
        | Throws => []
        | Resolved poses =>
            match poses with
            | [] => []
            | first :: _ =>
                match Pose.keypoints first with
                | None => []
                | Some _ => flat_map (drawPose env) poses
                end
            end
        end
  | None => canvas
  end.

Definition handleTimeUpdate : option Video.t -> list Command :=
  Overlay.handleTimeUpdate pausePoints.

Definition getJointSide (jointName : string) : option string :=
  if JS.includes jointName "left" then Some "Left"
  else if JS.includes jointName "right" then Some "Right"
  else None.

(** The box of [drawJointTooltip]: [(tooltipX, tooltipY, boxWidth, boxHeight)]
    for a joint at [(x, y)] on a canvas of the given size. *)
Definition tooltipBox (canvasWidth canvasHeight x y : float) (angle : option float)
    : float * float * float * float :=
  let padding := 8 in
  let boxWidth := 150 in
  let boxHeight := match angle with Some _ => 60 | None => 40 end in
  let tooltipX := x + 15 in
  let tooltipY := y - boxHeight / 2 in
  let tooltipX :=
    if canvasWidth <? tooltipX + boxWidth then x - boxWidth - 15 else tooltipX in
  let tooltipY :=
    if canvasHeight <? tooltipY + boxHeight
    then canvasHeight - boxHeight - padding else tooltipY in
  let tooltipY := if tooltipY <? padding then padding else tooltipY in
  (tooltipX, tooltipY, boxWidth, boxHeight).

(** One [animate] frame of a running loop: [detectAndDraw] is dispatched when
    the video is not paused and more than [1000/30] ms have passed. *)
Definition animate (env : Env) (now lastDrawTime : float) : bool * float :=
  let notPaused :=
    match videoRef env with
    | Some video => negb (Video.paused video)
    | None => true
    end in
  if notPaused then
    if 1000 / 30 <? now - lastDrawTime then (true, now) else (false, lastDrawTime)
  else (false, lastDrawTime).

(** One run of the animation effect; the loop is started only when
    [isVideoReady && !error && detector] holds as the effect runs
    ([isAnimating]), and [lastDrawTime] starts at 0. *)
Definition runAnimation (isAnimating : bool) (frames : list (Env * float))
    : list float :=
  if isAnimating then Overlay.runFrames animate frames 0 else [].

End Hover.

(** ** Sample inputs

    A 1920×1080 video rendered at 640×360 and paused at a pause point; a pose
    whose hip is below the confidence threshold. *)

Module Sample.

Definition video : Video.t := Video.mk 1920 1080 640 360 true 6.

Definition env : Env :=
  mkEnv true (Some video) true true true true (640, 360) (0, 0).

Definition knee : Keypoint.t := Keypoint.mk "left_knee" 960 600 (Some 0.5).
Definition hip : Keypoint.t := Keypoint.mk "left_hip" 900 300 (Some 0.29).
Definition ankle : Keypoint.t := Keypoint.mk "left_ankle" 990 900 (Some 0.31).

Definition pose : Pose.t := Pose.mk (Some [knee; hip; ankle]) (Some 0.9).

(** A pose in which only the knee clears the threshold. *)
Definition kneeOnly : Pose.t := Pose.mk (Some [knee; hip]) (Some 0.9).

(** Something painted by an earlier cycle. *)
Definition earlier : list DrawOp := [Marker 320 200 "#FFA500"].

(** A right-angled left arm; the shoulder is below the threshold. *)
Definition shoulder : Keypoint.t := Keypoint.mk "left_shoulder" 0 0 (Some 0.29).
Definition elbow : Keypoint.t := Keypoint.mk "left_elbow" 300 0 (Some 0.9).
Definition wrist : Keypoint.t := Keypoint.mk "left_wrist" 300 300 (Some 0.9).
Definition arm : list Keypoint.t := [shoulder; elbow; wrist].

(** The same arm with the shoulder moved above the elbow. *)
Definition raisedShoulder : Keypoint.t :=
  Keypoint.mk "left_shoulder" 300 (-300) (Some 0.29).
Definition raisedArm : list Keypoint.t := [raisedShoulder; elbow; wrist].

(** The right-angled unit arm: shoulder (0,0), elbow (1,0), wrist (1,1). *)
Definition unitArm : list Keypoint.t :=
  [ Keypoint.mk "left_shoulder" 0 0 (Some 0.9);
    Keypoint.mk "left_elbow" 1 0 (Some 0.9);
    Keypoint.mk "left_wrist" 1 1 (Some 0.9) ].

(** A right-angled left leg. *)
Definition leg : list Keypoint.t :=
  [ Keypoint.mk "left_hip" 0 0 (Some 0.9);
    Keypoint.mk "left_knee" 300 0 (Some 0.9);
    Keypoint.mk "left_ankle" 300 300 (Some 0.9) ].

(** A joint mapped to the origin of the canvas. *)
Definition corner : Keypoint.t := Keypoint.mk "right_wrist" 0 0 (Some 0.9).

(** Two joints 10px apart on screen. *)
Definition nose : Keypoint.t := Keypoint.mk "nose" 300 300 (Some 0.9).
Definition eye : Keypoint.t := Keypoint.mk "left_eye" 330 300 (Some 0.9).

(** A joint at the nose's place whose score is exactly 0.3. *)
Definition faint : Keypoint.t := Keypoint.mk "left_ear" 300 300 (Some 0.3).



End Sample.

(** * Properties *)

(** ** Facts about binary64 numbers *)

Section FloatFacts.

Lemma ltb_irrefl (v : float) : (v <? v) = false.
Proof.
  rewrite FloatAxioms.ltb_spec. unfold SFltb.
  destruct (Prim2SF v) as [s | s | | s m e]; simpl; try reflexivity.
  - destruct s; reflexivity.
  - destruct s; rewrite Z.compare_refl, Pos.compare_cont_refl; reflexivity.
Qed.

(** [v - v] is [+0] or [NaN], never positive. *)
Lemma sub_self_not_pos (v : float) : (0 <? v - v) = false.
Proof.
  rewrite FloatAxioms.ltb_spec, FloatAxioms.sub_spec. unfold SF64sub, SFsub.
  destruct (Prim2SF v) as [s | s | | s m e]; try (destruct s; reflexivity).
  - reflexivity.
  - rewrite Z.sub_diag. reflexivity.
Qed.

Lemma neg_infinity_least (v : float) :
  is_nan v = false -> (neg_infinity <? v) = false -> v = neg_infinity.
Proof.
  unfold is_nan. intros Hn Hl.
  rewrite FloatAxioms.eqb_spec in Hn. rewrite FloatAxioms.ltb_spec in Hl.
  apply Prim2SF_inj. change (Prim2SF neg_infinity) with (S754_infinity true) in *.
  destruct (Prim2SF v) as [s | s | | s m e]; simpl in *; try discriminate.
  destruct s; [reflexivity | discriminate].
Qed.

Lemma infinity_greatest (v : float) :
  is_nan v = false -> (v <? infinity) = false -> v = infinity.
Proof.
  unfold is_nan. intros Hn Hl.
  rewrite FloatAxioms.eqb_spec in Hn. rewrite FloatAxioms.ltb_spec in Hl.
  apply Prim2SF_inj. change (Prim2SF infinity) with (S754_infinity false) in *.
  destruct (Prim2SF v) as [s | s | | s m e]; simpl in *; try discriminate;
    destruct s; try discriminate; reflexivity.
Qed.

(** The only [NaN] of the embedding. *)
Lemma is_nan_eq (v : float) : is_nan v = true -> v = nan.
Proof.
  unfold is_nan. rewrite FloatAxioms.eqb_spec. intros Hn.
  apply Prim2SF_inj. change (Prim2SF nan) with S754_nan.
  destruct (Prim2SF v) as [s | s | | s m e]; simpl in *; try reflexivity.
  - discriminate.
  - destruct s; discriminate.
  - unfold SFeqb, SFcompare in Hn.
    destruct s; rewrite Z.compare_refl, Pos.compare_cont_refl in Hn; discriminate.
Qed.

Lemma is_zero_eq (v : float) : is_zero v = true -> v = 0 \/ v = -0.
Proof.
  unfold is_zero. rewrite FloatAxioms.eqb_spec. intros Hz.
  change (Prim2SF zero) with (S754_zero false) in Hz.
  destruct (Prim2SF v) as [s | s | | s m e] eqn:E; simpl in Hz;
    try discriminate; try (destruct s; discriminate).
  destruct s; [right | left]; apply Prim2SF_inj; rewrite E; reflexivity.
Qed.

(** A falsy number is [NaN], [+0] or [-0]. *)
Lemma falsy_cases (v : float) :
  JS.truthy v = false -> v = nan \/ v = 0 \/ v = -0.
Proof.
  unfold JS.truthy. intros H. apply negb_false_iff, orb_true_iff in H.
  destruct H as [H | H]; [left; apply is_nan_eq | right; apply is_zero_eq]; exact H.
Qed.

Lemma SFcompare_Lt_Gt (a b : spec_float) :
  SFcompare a b = Some Lt -> SFcompare b a = Some Gt.
Proof.
  destruct a as [sa | sa | | sa ma ea], b as [sb | sb | | sb mb eb];
    simpl; try discriminate;
    try (destruct sa; try destruct sb; simpl; congruence).
  destruct sa, sb; try congruence;
    rewrite (Z.compare_antisym ea eb);
    destruct (ea ?= eb)%Z; simpl; try congruence;
    rewrite (ZC4 mb ma);
    destruct (Pos.compare_cont Eq ma mb); simpl; congruence.
Qed.

Lemma ltb_asym (a b : float) : (a <? b) = true -> (b <? a) = false.
Proof.
  rewrite !FloatAxioms.ltb_spec. unfold SFltb. intros H.
  destruct (SFcompare (Prim2SF a) (Prim2SF b)) as [[ | | ] | ] eqn:E;
    try discriminate.
  rewrite (SFcompare_Lt_Gt _ _ E). reflexivity.
Qed.

End FloatFacts.

(** ** [Math.max] and [Math.min] of equal numbers *)

Section Extremes.

Lemma max_step_same (v : float) : Math.max_step v v = v.
Proof.
  unfold Math.max_step. rewrite ltb_irrefl. destruct (classify v); reflexivity.
Qed.

Lemma min_step_same (v : float) : Math.min_step v v = v.
Proof.
  unfold Math.min_step. rewrite ltb_irrefl. destruct (classify v); reflexivity.
Qed.

Lemma max_step_first (v : float) :
  is_nan v = false -> Math.max_step neg_infinity v = v.
Proof.
  intros Hn. unfold Math.max_step.
  change (classify neg_infinity) with NInf.
  destruct (neg_infinity <? v) eqn:Hl.
  - destruct (classify v); reflexivity.
  - rewrite (neg_infinity_least v Hn Hl). reflexivity.
Qed.

Lemma min_step_first (v : float) :
  is_nan v = false -> Math.min_step infinity v = v.
Proof.
  intros Hn. unfold Math.min_step.
  change (classify infinity) with PInf.
  destruct (v <? infinity) eqn:Hl.
  - destruct (classify v); reflexivity.
  - rewrite (infinity_greatest v Hn Hl). reflexivity.
Qed.

Lemma fold_step_same (step : float -> float -> float) (v : float) (xs : list float) :
  step v v = v -> Forall (fun x => x = v) xs -> fold_left step xs v = v.
Proof.
  intros Hstep Hall. induction Hall as [| x xs Hx _ IH]; simpl.
  - reflexivity.
  - subst x. rewrite Hstep. exact IH.
Qed.

Lemma existsb_nan_same (v : float) (xs : list float) :
  is_nan v = false -> Forall (fun x => x = v) xs -> existsb is_nan xs = false.
Proof.
  intros Hn Hall. induction Hall as [| x xs Hx _ IH]; simpl.
  - reflexivity.
  - subst x. rewrite Hn. exact IH.
Qed.

(** The maximum of a non-empty list of copies of [v] is [v]. *)
Lemma max_same (v : float) (xs : list float) :
  xs <> [] -> Forall (fun x => x = v) xs -> Math.max xs = v.
Proof.
  intros Hne Hall. destruct Hall as [| x xs Hx Hall]; [congruence |]. subst x.
  unfold Math.max. destruct (is_nan v) eqn:Hn.
  - simpl. rewrite Hn. simpl. symmetry. apply is_nan_eq, Hn.
  - rewrite (existsb_nan_same v (v :: xs) Hn) by (constructor; auto).
    simpl. rewrite (max_step_first v Hn).
    apply fold_step_same; [apply max_step_same | exact Hall].
Qed.

Lemma min_same (v : float) (xs : list float) :
  xs <> [] -> Forall (fun x => x = v) xs -> Math.min xs = v.
Proof.
  intros Hne Hall. destruct Hall as [| x xs Hx Hall]; [congruence |]. subst x.
  unfold Math.min. destruct (is_nan v) eqn:Hn.
  - simpl. rewrite Hn. simpl. symmetry. apply is_nan_eq, Hn.
  - rewrite (existsb_nan_same v (v :: xs) Hn) by (constructor; auto).
    simpl. rewrite (min_step_first v Hn).
    apply fold_step_same; [apply min_step_same | exact Hall].
Qed.

(** So the extent of such a list is not positive. *)
Lemma extent_same (v : float) (xs : list float) :
  xs <> [] -> Forall (fun x => x = v) xs ->
  (0 <? Math.max xs - Math.min xs) = false.
Proof.
  intros Hne Hall. rewrite (max_same v xs Hne Hall), (min_same v xs Hne Hall).
  apply sub_self_not_pos.
Qed.

End Extremes.

(** ** Playback: the automatic pause *)

Section Playback.

Lemma near_point_iff (pausePoints : list float) (t : float) :
  existsb (fun point => abs (t - point) <? 0.1) pausePoints = true <->
  exists p, In p pausePoints /\ (abs (t - p) <? 0.1) = true.
Proof. apply existsb_exists. Qed.

Lemma handleTimeUpdate_cases (pausePoints : list float) (video : Video.t) :
  Overlay.handleTimeUpdate pausePoints (Some video) =
    if JS.truthy (Video.currentTime video)
       && existsb (fun point => abs (Video.currentTime video - point) <? 0.1)
                  pausePoints
       && negb (Video.paused video)
    then Overlay.pauseCycle else [].
Proof.
  unfold Overlay.handleTimeUpdate.
  destruct (JS.truthy (Video.currentTime video)); reflexivity.
Qed.

(** A falsy time is not within the tolerance of 3, 6, 7 or 10 seconds. *)
Lemma falsy_far_from_points (t : float) :
  JS.truthy t = false ->
  existsb (fun point => abs (t - point) <? 0.1) Click.pausePoints = false /\
  existsb (fun point => abs (t - point) <? 0.1) Hover.pausePoints = false.
Proof.
  intros H. destruct (falsy_cases t H) as [-> | [-> | ->]]; split; reflexivity.
Qed.

End Playback.



(** When each handler issues the pause cycle. *)
Lemma handleTimeUpdate_trigger :
  (forall video,
      Click.handleTimeUpdate (Some video) = Overlay.pauseCycle <->
      Video.paused video = false /\
      exists p, In p Click.pausePoints /\
                (abs (Video.currentTime video - p) <? 0.1) = true) /\
  (forall video,
      Hover.handleTimeUpdate (Some video) = Overlay.pauseCycle <->
      Video.paused video = false /\
      exists p, In p Hover.pausePoints /\
                (abs (Video.currentTime video - p) <? 0.1) = true) /\
  (forall pausePoints video,
      Overlay.handleTimeUpdate pausePoints (Some video) = Overlay.pauseCycle <->
      Video.paused video = false /\
      JS.truthy (Video.currentTime video) = true /\
      exists p, In p pausePoints /\ (abs (Video.currentTime video - p) <? 0.1) = true) /\
  (forall pausePoints video,
      Overlay.handleTimeUpdate pausePoints (Some video) = Overlay.pauseCycle \/
      Overlay.handleTimeUpdate pausePoints (Some video) = []) /\
  (forall vw vh rw rh,
      Overlay.handleTimeUpdate [6; 10] (Some (Video.mk vw vh rw rh false 6.05))
        = Overlay.pauseCycle /\
      Overlay.handleTimeUpdate [6; 10] (Some (Video.mk vw vh rw rh false 5.0)) = []) /\
  (forall pausePoints vw vh rw rh t,
      Overlay.handleTimeUpdate pausePoints (Some (Video.mk vw vh rw rh true t)) = []).
Proof.
  assert (general : forall pausePoints video,
      Overlay.handleTimeUpdate pausePoints (Some video) = Overlay.pauseCycle <->
      Video.paused video = false /\
      JS.truthy (Video.currentTime video) = true /\
      exists p, In p pausePoints /\ (abs (Video.currentTime video - p) <? 0.1) = true).
  { intros pausePoints video. rewrite handleTimeUpdate_cases, <- near_point_iff.
    destruct (JS.truthy _), (existsb _ _), (Video.paused video); simpl;
      split; try discriminate; try tauto;
      intros (? & ? & ?); discriminate. }
  assert (guardless : forall pts,
      (forall t, JS.truthy t = false ->
                 existsb (fun point => abs (t - point) <? 0.1) pts = false) ->
      forall video,
        Overlay.handleTimeUpdate pts (Some video) = Overlay.pauseCycle <->
        Video.paused video = false /\
        exists p, In p pts /\ (abs (Video.currentTime video - p) <? 0.1) = true).
  { intros pts Hfar video. rewrite general. split.
    - intros (Hp & _ & Hex). split; assumption.
    - intros (Hp & Hex). repeat split; try assumption.
      destruct (JS.truthy (Video.currentTime video)) eqn:Ht; [reflexivity |].
      apply near_point_iff in Hex. rewrite (Hfar _ Ht) in Hex. discriminate. }
  repeat apply conj.
  - apply guardless. intros t Ht. apply (falsy_far_from_points t Ht).
  - apply guardless. intros t Ht. apply (falsy_far_from_points t Ht).
  - exact general.
  - intros pausePoints video. rewrite handleTimeUpdate_cases.
    destruct (_ && _ && _); [left | right]; reflexivity.
  - intros vw vh rw rh. split; reflexivity.
  - intros pausePoints vw vh rw rh t. rewrite handleTimeUpdate_cases. simpl.
    rewrite andb_false_r. reflexivity.
Qed.

(** C4: on a [timeupdate] while the video is playing, each player issues the
    pause cycle (the pause command, recorded in [isPaused], then the 200ms
    settle delay, then one detection pass) if and only if the current time
    [t] satisfies [|t - p| < 0.1] for some entry [p] of its schedule, [6, 10]
    in the click player and [3, 7] in the hover player.  With schedule
    [6, 10], [t = 6.05] triggers the cycle and [t = 5.0] does not, and
    nothing is issued while already paused.  (For an arbitrary schedule the
    handler also requires [t] to be truthy, which no entry of these schedules
    makes a difference for; otherwise it issues nothing.) *)
Theorem C4_pause_cycle_trigger :
  (forall video,
      Click.handleTimeUpdate (Some video)
        = [VideoPause; SetIsPaused true; Settle 200; DetectAndDraw] <->
      Video.paused video = false /\
      exists p, In p [6; 10] /\
                (abs (Video.currentTime video - p) <? 0.1) = true) /\
  (forall video,
      Hover.handleTimeUpdate (Some video)
        = [VideoPause; SetIsPaused true; Settle 200; DetectAndDraw] <->
      Video.paused video = false /\
      exists p, In p [3; 7] /\
                (abs (Video.currentTime video - p) <? 0.1) = true) /\
  (forall pausePoints video,
      Overlay.handleTimeUpdate pausePoints (Some video)
        = [VideoPause; SetIsPaused true; Settle 200; DetectAndDraw] <->
      Video.paused video = false /\
      JS.truthy (Video.currentTime video) = true /\
      exists p, In p pausePoints /\ (abs (Video.currentTime video - p) <? 0.1) = true) /\
  (forall pausePoints video,
      Overlay.handleTimeUpdate pausePoints (Some video)
        = [VideoPause; SetIsPaused true; Settle 200; DetectAndDraw] \/
      Overlay.handleTimeUpdate pausePoints (Some video) = []) /\
  (forall vw vh rw rh,
      Overlay.handleTimeUpdate [6; 10] (Some (Video.mk vw vh rw rh false 6.05))
        = [VideoPause; SetIsPaused true; Settle 200; DetectAndDraw] /\
      Overlay.handleTimeUpdate [6; 10] (Some (Video.mk vw vh rw rh false 5.0)) = []) /\
  (forall pausePoints vw vh rw rh t,
      Overlay.handleTimeUpdate pausePoints (Some (Video.mk vw vh rw rh true t)) = []).
Proof. exact handleTimeUpdate_trigger. Qed.

(** The claim's instance: the click player, playing at 6.05 seconds. *)
Lemma C4_pause_cycle_witness :
  Click.handleTimeUpdate (Some (Video.mk 1920 1080 640 360 false 6.05))
    = [VideoPause; SetIsPaused true; Settle 200; DetectAndDraw].
Proof.
  apply (proj2 (proj1 C4_pause_cycle_trigger
                 (Video.mk 1920 1080 640 360 false 6.05))).
  split; [reflexivity |].
  exists 6. split; [left; reflexivity | reflexivity].
Defined.

(** ** Coordinate mapping *)

(** Two numbers that a boolean test tells apart are different. *)
Ltac float_discriminate test :=
  let H := fresh in
  intros H; apply (f_equal test) in H; vm_compute in H; discriminate H.

Section Mapping.

Lemma mapToDisplaySpace_some (video : Video.t) (x y : float) :
  Overlay.mapToDisplaySpace (Some video) x y =
    (x * (Video.rectWidth video / Video.videoWidth video),
     y * (Video.rectHeight video / Video.videoHeight video)).
Proof. reflexivity. Qed.

(** The end-to-end scenario: 1920×1080 rendered at 640×360. *)
Example mapToDisplaySpace_scenario :
  Overlay.mapToDisplaySpace (Some (Video.mk 1920 1080 640 360 true 6)) 960 600
    = (320, 200) /\
  Click.toNativeSpace 1920 1080 640 360 (320, 200) = (960, 600).
Proof. split; reflexivity. Qed.

(** *** Scaling by a quotient with a zero in it *)

Lemma is_zero_spec (v : float) :
  is_zero v = true -> exists s, Prim2SF v = S754_zero s.
Proof.
  unfold is_zero. rewrite FloatAxioms.eqb_spec.
  change (Prim2SF zero) with (S754_zero false).
  destruct (Prim2SF v) as [s | s | | s m e]; simpl; try discriminate.
  - intros _. exists s. reflexivity.
  - destruct s; discriminate.
  - destruct s; discriminate.
Qed.

Lemma not_finite_spec (v : float) :
  Prim2SF v = S754_nan \/ (exists s, Prim2SF v = S754_infinity s) ->
  is_finite v = false.
Proof.
  unfold is_finite, is_nan, is_infinity.
  rewrite !FloatAxioms.eqb_spec, FloatAxioms.abs_spec.
  change (Prim2SF infinity) with (S754_infinity false).
  intros [-> | [s ->]]; [reflexivity | destruct s; reflexivity].
Qed.

Lemma is_finite_spec (v : float) :
  is_finite v = true ->
  (exists s, Prim2SF v = S754_zero s) \/ (exists s m e, Prim2SF v = S754_finite s m e).
Proof.
  intros Hf. destruct (Prim2SF v) as [s | s | | s m e] eqn:E.
  - left. exists s. reflexivity.
  - rewrite (not_finite_spec v) in Hf; [discriminate | right; exists s; exact E].
  - rewrite (not_finite_spec v) in Hf; [discriminate | left; exact E].
  - right. exists s, m, e. reflexivity.
Qed.

(** Dividing by a zero gives an infinity or [NaN], and so does any multiple
    of the quotient. *)
Lemma scaled_by_zero_divisor (x num den : float) :
  is_zero den = true -> is_finite (x * (num / den)) = false.
Proof.
  intros Hden. destruct (is_zero_spec den Hden) as [sd Hd].
  apply not_finite_spec.
  rewrite FloatAxioms.mul_spec, FloatAxioms.div_spec, Hd.
  unfold SF64mul, SF64div, SFmul, SFdiv.
  destruct (Prim2SF x) as [sx | sx | | sx mx ex],
           (Prim2SF num) as [sn | sn | | sn mn en];
    simpl; eauto.
Qed.

(** A zero divided by a zero is [NaN], and so is any multiple of it. *)
Lemma scaled_by_zero_over_zero (x num den : float) :
  is_zero num = true -> is_zero den = true -> x * (num / den) = nan.
Proof.
  intros Hnum Hden.
  destruct (is_zero_spec num Hnum) as [sn Hn], (is_zero_spec den Hden) as [sd Hd].
  apply Prim2SF_inj. change (Prim2SF nan) with S754_nan.
  rewrite FloatAxioms.mul_spec, FloatAxioms.div_spec, Hn, Hd.
  unfold SF64mul, SF64div, SFmul, SFdiv.
  destruct (Prim2SF x); reflexivity.
Qed.

(** A finite number times a zero quotient is a zero. *)
Lemma scaled_by_zero_dividend (x num den : float) :
  is_zero num = true -> is_zero den = false -> is_nan den = false ->
  is_finite x = true ->
  is_zero (x * (num / den)) = true.
Proof.
  intros Hnum Hden Hnan Hx.
  destruct (is_zero_spec num Hnum) as [sn Hn].
  unfold is_zero in *. unfold is_nan in Hnan.
  rewrite FloatAxioms.eqb_spec in Hden, Hnan |- *.
  rewrite FloatAxioms.mul_spec, FloatAxioms.div_spec, Hn.
  change (Prim2SF zero) with (S754_zero false) in *.
  unfold SF64mul, SF64div, SFmul, SFdiv.
  destruct (is_finite_spec x Hx) as [[sx ->] | (sx & mx & ex & ->)];
    destruct (Prim2SF den) as [sd | sd | | sd md ed]; simpl in *;
    try discriminate; reflexivity.
Qed.

(** A number that is not finite is not a finite one. *)
Lemma not_finite_neq (x r : float) :
  is_finite x = true -> is_finite r = false -> r <> x.
Proof. intros Hx Hr ->. rewrite Hx in Hr. discriminate. Qed.

End Mapping.

(** C6, as the claim states it, fails: with a zero native size the mapped
    point is not the input but infinite, and with a zero rendered size it is
    the origin. *)
Lemma C6_counterexample :
  Overlay.mapToDisplaySpace (Some (Video.mk 0 0 640 360 true 0)) 5 5
    = (infinity, infinity) /\
  (infinity, infinity) <> (5, 5) /\
  Overlay.mapToDisplaySpace (Some (Video.mk 1920 1080 0 0 true 0)) 5 5 = (0, 0) /\
  (0, 0) <> (5, 5).
Proof.
  repeat split; try reflexivity.
  - float_discriminate (fun p : float * float => is_infinity (fst p)).
  - float_discriminate (fun p : float * float => is_zero (fst p)).
Qed.

(** C6 (amended): [mapToDisplaySpace] tests no dimension for zero.  Without
    a video element it returns the input point unchanged; with one it
    returns [(x * (w'/W), y * (h'/H))] whatever the sizes.  So when a native
    dimension is 0 the mapped coordinate is never finite (an infinity or
    [NaN]) and hence differs from a finite input; it is [NaN] when the
    rendered dimension is 0 too; and when a rendered dimension is 0 while the
    native one is neither 0 nor [NaN], a finite coordinate is mapped to a
    zero.  In the hover player [detectAndDraw] returns, leaving the canvas as
    it is, before any mapping when the native width or height is 0. *)
Theorem C6_mapToDisplaySpace_unguarded :
  (forall x y, Overlay.mapToDisplaySpace None x y = (x, y)) /\
  (forall video x y,
      Overlay.mapToDisplaySpace (Some video) x y =
        (x * (Video.rectWidth video / Video.videoWidth video),
         y * (Video.rectHeight video / Video.videoHeight video))) /\
  (forall video x y,
      ((Video.videoWidth video =? 0) = true ->
       is_finite (fst (Overlay.mapToDisplaySpace (Some video) x y)) = false /\
       (is_finite x = true ->
        fst (Overlay.mapToDisplaySpace (Some video) x y) <> x)) /\
      ((Video.videoHeight video =? 0) = true ->
       is_finite (snd (Overlay.mapToDisplaySpace (Some video) x y)) = false /\
       (is_finite y = true ->
        snd (Overlay.mapToDisplaySpace (Some video) x y) <> y))) /\
  (forall video x y,
      ((Video.videoWidth video =? 0) = true -> (Video.rectWidth video =? 0) = true ->
       fst (Overlay.mapToDisplaySpace (Some video) x y) = nan) /\
      ((Video.videoHeight video =? 0) = true -> (Video.rectHeight video =? 0) = true ->
       snd (Overlay.mapToDisplaySpace (Some video) x y) = nan)) /\
  (forall video x y,
      ((Video.rectWidth video =? 0) = true ->
       (Video.videoWidth video =? 0) = false -> is_nan (Video.videoWidth video) = false ->
       is_finite x = true ->
       (fst (Overlay.mapToDisplaySpace (Some video) x y) =? 0) = true) /\
      ((Video.rectHeight video =? 0) = true ->
       (Video.videoHeight video =? 0) = false ->
       is_nan (Video.videoHeight video) = false ->
       is_finite y = true ->
       (snd (Overlay.mapToDisplaySpace (Some video) x y) =? 0) = true)) /\
  (forall (E : Math.Engine) d c ctx r s dims mp vw vh rw rh p t estimate canvas,
      Hover.detectAndDraw
        (mkEnv d (Some (Video.mk 0 vh rw rh p t)) c ctx r s dims mp) estimate canvas
        = canvas /\
      Hover.detectAndDraw
        (mkEnv d (Some (Video.mk vw 0 rw rh p t)) c ctx r s dims mp) estimate canvas
        = canvas).
Proof.
  split; [reflexivity |]. split; [reflexivity |].
  split; [| split; [| split]].
  - intros video x y. split; intros Hzero;
      (split; [apply scaled_by_zero_divisor, Hzero |]);
      intros Hfinite; (apply not_finite_neq; [exact Hfinite |]);
      apply scaled_by_zero_divisor, Hzero.
  - intros video x y. split; intros Hnative Hrendered;
      apply scaled_by_zero_over_zero; assumption.
  - intros video x y. split; intros Hrendered Hnative Hnan Hfinite.
    + apply (scaled_by_zero_dividend x _ _ Hrendered Hnative Hnan Hfinite).
    + apply (scaled_by_zero_dividend y _ _ Hrendered Hnative Hnan Hfinite).
  - intros. unfold Hover.detectAndDraw. simpl.
    split; destruct (d && c && r); simpl; try reflexivity.
    destruct (vw =? 0); reflexivity.
Qed.

(** The point (5, 5) on a video of native size 0 rendered at 640×360: its
    mapped x is not finite and is not 5. *)
Lemma C6_mapToDisplaySpace_witness :
  is_finite (fst (Overlay.mapToDisplaySpace (Some (Video.mk 0 0 640 360 true 0)) 5 5))
    = false /\
  (is_finite 5 = true ->
   fst (Overlay.mapToDisplaySpace (Some (Video.mk 0 0 640 360 true 0)) 5 5) <> 5).
Proof.
  apply (proj1 (proj1 (proj2 (proj2 C6_mapToDisplaySpace_unguarded))
                  (Video.mk 0 0 640 360 true 0) 5 5)).
  reflexivity.
Defined.







(** ** What each drawing step paints *)

Section Layers.
Context `{Math.Engine}.

Lemma filter_flat_map_nil {A B} (p : B -> bool) (f : A -> list B) (l : list A) :
  (forall a, List.filter p (f a) = []) -> List.filter p (flat_map f l) = [].
Proof.
  intros Hf. induction l as [| a l IH]; simpl; [reflexivity |].
  rewrite List.filter_app, Hf, IH. reflexivity.
Qed.

Lemma filter_flat_map_some {A B} (p : B -> bool) (f : A -> list B) (l : list A) :
  List.filter p (flat_map f l) <> [] ->
  exists a, In a l /\ List.filter p (f a) <> [].
Proof.
  induction l as [| a l IH]; simpl; [congruence |].
  rewrite List.filter_app. intros Hne.
  destruct (List.filter p (f a)) eqn:E.
  - destruct (IH Hne) as (b & Hb & Hfb). exists b. split; [right |]; assumption.
  - exists a. split; [left; reflexivity | rewrite E; discriminate].
Qed.

Lemma Forall_flat_map {A B} (P : B -> Prop) (f : A -> list B) (l : list A) :
  (forall a, Forall P (f a)) -> Forall P (flat_map f l).
Proof.
  intros Hf. induction l as [| a l IH]; simpl; [constructor |].
  apply Forall_app. split; [apply Hf | exact IH].
Qed.

(** A connection paints at most one bone. *)
Lemma drawConnection_layer videoRef map c :
  Forall (fun op => layer op = 1%nat) (Overlay.drawConnection videoRef map c).
Proof.
  unfold Overlay.drawConnection.
  destruct (map !! fst c), (map !! snd c); try constructor.
  destruct (_ && _ && _ && _); repeat constructor.
Qed.

Lemma Click_drawSkeleton_layer env keypoints :
  Forall (fun op => layer op = 1%nat) (Click.drawSkeleton env keypoints).
Proof. apply Forall_flat_map. intros c. apply drawConnection_layer. Qed.

Lemma Hover_drawSkeleton_layer env keypoints :
  Forall (fun op => layer op = 1%nat) (Hover.drawSkeleton env keypoints).
Proof.
  unfold Hover.drawSkeleton. destruct (videoRef env) as [video |]; [| constructor].
  destruct (negb (Video.paused video)); [constructor |].
  apply Forall_flat_map. intros c. apply drawConnection_layer.
Qed.

Lemma Click_drawMarkers_layer env keypoints :
  Forall (fun op => layer op = 2%nat) (Click.drawMarkers env keypoints).
Proof.
  apply Forall_flat_map. intros kp.
  destruct (Overlay.scoreAbove kp); repeat constructor.
Qed.

Lemma Click_applyDimmingEffect_layer env keypoints :
  Forall (fun op => layer op = 0%nat) (Click.applyDimmingEffect env keypoints).
Proof.
  unfold Click.applyDimmingEffect. destruct (Nat.eqb _ 0%nat); repeat constructor.
Qed.

(** A keypoint paints a marker and possibly its tooltip, never dimming. *)
Lemma Hover_drawKeypoint_layer env map keypoint :
  Forall (fun op => layer op = 2%nat \/ layer op = 3%nat)
         (Hover.drawKeypoint env map keypoint).
Proof.
  unfold Hover.drawKeypoint. destruct (Overlay.scoreBelow keypoint); [constructor |].
  destruct (videoRef env) as [video |]; [| constructor].
  destruct (Video.paused video); [| constructor].
  constructor; [left; reflexivity |].
  destruct (_ <? 15); [| constructor].
  constructor; [right; reflexivity | constructor].
Qed.

Lemma filter_isDimming_nil (ops : list DrawOp) :
  Forall (fun op => layer op <> 0%nat) ops -> List.filter isDimming ops = [].
Proof.
  intros Hall. induction Hall as [| op ops Hop _ IH]; simpl; [reflexivity |].
  unfold isDimming at 1. destruct (Nat.eqb_spec (layer op) 0%nat); [contradiction | exact IH].
Qed.

Lemma Hover_drawPose_dimming env pose :
  List.filter isDimming (Hover.drawPose env pose) = [] \/
  exists keypoints,
    Pose.keypoints pose = Some keypoints /\
    List.filter isDimming (Hover.drawPose env pose)
      = List.filter isDimming (Hover.drawDimming env keypoints).
Proof.
  unfold Hover.drawPose. destruct (_ || _); [left; reflexivity |].
  destruct (Pose.keypoints pose) as [keypoints |]; [| left; reflexivity].
  destruct (Nat.eqb _ 0%nat); [left; reflexivity |].
  right. exists keypoints. split; [reflexivity |].
  rewrite !List.filter_app.
  rewrite (filter_isDimming_nil (Hover.drawSkeleton env keypoints)).
  - rewrite (filter_isDimming_nil (flat_map _ keypoints)); [reflexivity |].
    apply Forall_flat_map. intros kp.
    eapply List.Forall_impl; [| apply Hover_drawKeypoint_layer].
    simpl. intros op [Hop | Hop]; rewrite Hop; discriminate.
  - eapply List.Forall_impl; [| apply Hover_drawSkeleton_layer].
    simpl. intros op Hop; rewrite Hop; discriminate.
Qed.

Lemma Hover_drawDimming_some env keypoints :
  Hover.drawDimming env keypoints <> [] ->
  showDimming env = true /\
  exists box,
    Hover.calculateBoundingBox keypoints = Some box /\
    (0 <? Hover.Box.width box) = true /\ (0 <? Hover.Box.height box) = true.
Proof.
  unfold Hover.drawDimming. destruct (showDimming env); [| congruence].
  destruct (Hover.calculateBoundingBox keypoints) as [box |]; [| congruence].
  destruct (0 <? Hover.Box.width box) eqn:Hw; simpl; [| congruence].
  destruct (0 <? Hover.Box.height box) eqn:Hh; simpl; [| congruence].
  intros _. split; [reflexivity |]. exists box. auto.
Qed.

(** Qualifying keypoints on one vertical or one horizontal line span no
    area, so nothing is dimmed. *)
Lemma Hover_drawDimming_flat env keypoints :
  List.filter Overlay.scoreAbove keypoints <> [] ->
  (exists v, Forall (fun k => Keypoint.x k = v)
                    (List.filter Overlay.scoreAbove keypoints)) \/
  (exists v, Forall (fun k => Keypoint.y k = v)
                    (List.filter Overlay.scoreAbove keypoints)) ->
  Hover.calculateBoundingBox keypoints <> None /\
  Hover.drawDimming env keypoints = [].
Proof.
  intros Hne Hflat. unfold Hover.drawDimming, Hover.calculateBoundingBox.
  destruct (List.filter Overlay.scoreAbove keypoints) as [| k valid] eqn:E;
    [congruence |].
  change (Nat.eqb (length (k :: valid)) 0%nat) with false. cbv iota.
  split; [discriminate |].
  destruct (showDimming env); [| reflexivity]. cbn [Hover.Box.width Hover.Box.height].
  destruct Hflat as [[v Hv] | [v Hv]].
  - rewrite (extent_same v (List.map Keypoint.x (k :: valid))).
    + reflexivity.
    + discriminate.
    + apply Forall_map. exact Hv.
  - rewrite (extent_same v (List.map Keypoint.y (k :: valid))).
    + rewrite andb_false_r. reflexivity.
    + discriminate.
    + apply Forall_map. exact Hv.
Qed.

End Layers.

(** ** Dimming *)

(** C10: in the hover player the dimming is painted only when dimming is
    enabled and the bounding box of the keypoints with score above 0.3 exists
    with strictly positive width and height.  A pose in which exactly one
    keypoint clears the threshold, or in which all such keypoints share one x
    or one y coordinate, is not dimmed although its bounding box exists. *)
Theorem C10_dimming_needs_area (E : Math.Engine) (env : Env) :
  (forall poses,
      List.filter isDimming (Hover.detectAndDraw env (Resolved poses) []) <> [] ->
      showDimming env = true /\
      exists pose keypoints box,
        In pose poses /\
        Pose.keypoints pose = Some keypoints /\
        Hover.calculateBoundingBox keypoints = Some box /\
        (0 <? Hover.Box.width box) = true /\
        (0 <? Hover.Box.height box) = true) /\
  (forall pose keypoints,
      Pose.keypoints pose = Some keypoints ->
      (exists k, List.filter Overlay.scoreAbove keypoints = [k]) \/
      (List.filter Overlay.scoreAbove keypoints <> [] /\
       exists v, Forall (fun k => Keypoint.x k = v)
                        (List.filter Overlay.scoreAbove keypoints)) \/
      (List.filter Overlay.scoreAbove keypoints <> [] /\
       exists v, Forall (fun k => Keypoint.y k = v)
                        (List.filter Overlay.scoreAbove keypoints)) ->
      Hover.calculateBoundingBox keypoints <> None /\
      List.filter isDimming (Hover.drawPose env pose) = [] /\
      List.filter isDimming (Hover.detectAndDraw env (Resolved [pose]) []) = []).
Proof.
  assert (posesDim : forall poses,
      List.filter isDimming (Hover.detectAndDraw env (Resolved poses) []) = [] \/
      List.filter isDimming (Hover.detectAndDraw env (Resolved poses) [])
        = List.filter isDimming (flat_map (Hover.drawPose env) poses)).
  { intros poses. unfold Hover.detectAndDraw.
    destruct (videoRef env) as [video |]; [| left; reflexivity].
    destruct (negb _); [left; reflexivity |].
    destruct (_ || _); [left; reflexivity |].
    destruct (negb _); [left; reflexivity |].
    destruct poses as [| first rest]; [left; reflexivity |].
    destruct (Pose.keypoints first); [right | left]; reflexivity. }
  split.
  - intros poses Hdim.
    destruct (posesDim poses) as [Hnil | Heq]; [congruence |].
    rewrite Heq in Hdim.
    destruct (filter_flat_map_some _ _ _ Hdim) as (pose & Hin & Hpose).
    destruct (Hover_drawPose_dimming env pose) as [Hnil | (keypoints & Hk & Hd)];
      [congruence |].
    rewrite Hd in Hpose.
    assert (Hne : Hover.drawDimming env keypoints <> [])
      by (intros Hnil; rewrite Hnil in Hpose; apply Hpose; reflexivity).
    destruct (Hover_drawDimming_some env keypoints Hne) as (Hshow & box & Hbox & Hw & Hh).
    split; [exact Hshow |]. exists pose, keypoints, box. auto.
  - intros pose keypoints Hk Hflat.
    assert (Hdraw : Hover.calculateBoundingBox keypoints <> None /\
                    Hover.drawDimming env keypoints = []).
    { destruct Hflat as [[k Hone] | [[Hne Hx] | [Hne Hy]]].
      - apply Hover_drawDimming_flat; [rewrite Hone; discriminate |].
        left. exists (Keypoint.x k). rewrite Hone. repeat constructor.
      - apply Hover_drawDimming_flat; [exact Hne | left; exact Hx].
      - apply Hover_drawDimming_flat; [exact Hne | right; exact Hy]. }
    destruct Hdraw as [Hbox Hnone].
    assert (Hpose : List.filter isDimming (Hover.drawPose env pose) = []).
    { destruct (Hover_drawPose_dimming env pose) as [Hnil | (keypoints' & Hk' & Hd)];
        [exact Hnil |].
      rewrite Hd. rewrite Hk in Hk'. injection Hk' as <-. rewrite Hnone. reflexivity. }
    split; [exact Hbox |]. split; [exact Hpose |].
    destruct (posesDim [pose]) as [Hnil | Heq]; [exact Hnil |].
    rewrite Heq. simpl. rewrite app_nil_r. exact Hpose.
Qed.

(** Only the knee clears the threshold: its bounding box exists, with no
    area, and the paused hover player paints the marker alone. *)
Lemma C10_dimming_witness :
  List.filter Overlay.scoreAbove [Sample.knee; Sample.hip] = [Sample.knee] /\
  Hover.calculateBoundingBox [Sample.knee; Sample.hip]
    = Some (Hover.Box.mk 960 600 0 0) /\
  List.filter isDimming
    (@Hover.detectAndDraw Math.axisEngine Sample.env (Resolved [Sample.kneeOnly]) [])
    = [] /\
  @Hover.detectAndDraw Math.axisEngine Sample.env (Resolved [Sample.kneeOnly]) []
    = [Marker 320 200 "#FFA500"].
Proof.
  split; [reflexivity |]. split; [reflexivity |]. split; [| reflexivity].
  apply (proj2 (C10_dimming_needs_area Math.axisEngine Sample.env)
           Sample.kneeOnly [Sample.knee; Sample.hip]).
  - reflexivity.
  - left. exists Sample.knee. reflexivity.
Defined.

(** ** Painting order *)

Section PaintingOrder.

(** The click player paints the dimming, then the skeleton, then the
    markers. *)
Lemma Click_drawOverlay_order (env : Env) (keypoints : list Keypoint.t) :
  exists dimming skeleton markers,
    Click.drawOverlay env keypoints = dimming ++ skeleton ++ markers /\
    Forall (fun op => layer op = 0%nat) dimming /\
    Forall (fun op => layer op = 1%nat) skeleton /\
    Forall (fun op => layer op = 2%nat) markers.
Proof.
  exists (if showDimming env then Click.applyDimmingEffect env keypoints else []),
         (Click.drawSkeleton env keypoints), (Click.drawMarkers env keypoints).
  split; [reflexivity |]. repeat split.
  - destruct (showDimming env); [apply Click_applyDimmingEffect_layer | constructor].
  - apply Click_drawSkeleton_layer.
  - apply Click_drawMarkers_layer.
Qed.

(** The hover player paints the skeleton, then each keypoint's marker and
    tooltip, and the dimming last. *)
Lemma Hover_drawPose_order `{Math.Engine} (env : Env) (pose : Pose.t) :
  exists skeleton joints dimming,
    Hover.drawPose env pose = skeleton ++ joints ++ dimming /\
    Forall (fun op => layer op = 1%nat) skeleton /\
    Forall (fun op => layer op = 2%nat \/ layer op = 3%nat) joints /\
    Forall (fun op => layer op = 0%nat) dimming.
Proof.
  unfold Hover.drawPose.
  destruct (_ || _); [exists [], [], []; repeat split; constructor |].
  destruct (Pose.keypoints pose) as [keypoints |];
    [| exists [], [], []; repeat split; constructor].
  destruct (Nat.eqb _ 0%nat); [exists [], [], []; repeat split; constructor |].
  exists (Hover.drawSkeleton env keypoints),
         (flat_map (Hover.drawKeypoint env (Overlay.keypointMap keypoints)) keypoints),
         (Hover.drawDimming env keypoints).
  split; [reflexivity |]. repeat split.
  - apply Hover_drawSkeleton_layer.
  - apply Forall_flat_map. intros kp. apply Hover_drawKeypoint_layer.
  - unfold Hover.drawDimming. destruct (showDimming env); [| constructor].
    destruct (Hover.calculateBoundingBox keypoints); [| constructor].
    destruct (_ && _); repeat constructor.
Qed.

Example Click_order_sample :
  Click.canvas
    (Click.detectAndDraw Sample.env (Resolved [Sample.pose])
       (Click.mkState [] None None))
  = [ DimLayer 640 360; Spotlight 270 150 110 200;
      Bone 320 200 330 300;
      Marker 320 200 "#FFA500"; Marker 330 300 "#FFA500" ].
Proof. reflexivity. Qed.

End PaintingOrder.

(** C7 fails in the hover player: on the sample pose, paused and with dimming
    enabled, it paints the skeleton and the markers first and the dimming
    layer and its spotlight last, over them. *)
Theorem C7_hover_dims_last (E : Math.Engine) :
  Hover.detectAndDraw Sample.env (Resolved [Sample.pose]) []
    = [ Bone 320 200 330 300;
        Marker 320 200 "#FFA500"; Marker 330 300 "#FFA500";
        DimLayer 640 360; Spotlight 270 150 110 200 ] /\
  List.map layer (Hover.detectAndDraw Sample.env (Resolved [Sample.pose]) [])
    = [1; 2; 2; 0; 0]%nat.
Proof. split; reflexivity. Qed.

(** ** A detection cycle that finds no pose *)

(** C3, as the claim states it, fails: after a cycle has painted the sample
    pose, a cycle whose estimation throws or returns no pose leaves the
    canvas blank in both players. *)
Lemma C3_counterexample :
  Click.canvas
    (Click.detectAndDraw Sample.env (Resolved [Sample.pose])
       (Click.mkState [] None None))
    = [ DimLayer 640 360; Spotlight 270 150 110 200; Bone 320 200 330 300;
        Marker 320 200 "#FFA500"; Marker 330 300 "#FFA500" ] /\
  Click.canvas
    (Click.detectAndDraw Sample.env Throws
       (Click.detectAndDraw Sample.env (Resolved [Sample.pose])
          (Click.mkState [] None None)))
    = [] /\
  Click.canvas
    (Click.detectAndDraw Sample.env (Resolved [])
       (Click.detectAndDraw Sample.env (Resolved [Sample.pose])
          (Click.mkState [] None None)))
    = [] /\
  @Hover.detectAndDraw Math.axisEngine Sample.env Throws Sample.earlier = [] /\
  @Hover.detectAndDraw Math.axisEngine Sample.env (Resolved []) Sample.earlier = [] /\
  Sample.earlier <> [].
Proof. repeat split; try reflexivity. discriminate. Qed.

(** C3 (amended): a detection cycle that passes the prerequisites clears the
    drawing surface before the estimator is called.  When the estimator
    throws, returns no pose, or returns a first pose without keypoints, the
    cycle paints nothing, so it leaves the surface blank; it ends normally,
    and what the next cycle paints does not depend on it. *)
Theorem C3_failed_cycle_clears (E : Math.Engine) (env : Env) (video : Video.t)
    (estimate : Estimate) :
  videoRef env = Some video ->
  detector env = true -> canvasRef env = true -> isVideoReady env = true ->
  estimate = Throws \/ estimate = Resolved [] \/
    (exists first rest,
        estimate = Resolved (first :: rest) /\ Pose.keypoints first = None) ->
  (forall st, Click.canvas (Click.detectAndDraw env estimate st) = []) /\
  ((Video.videoWidth video =? 0) = false ->
   (Video.videoHeight video =? 0) = false ->
   forall canvas, Hover.detectAndDraw env estimate canvas = []) /\
  (forall next st,
      Click.canvas (Click.detectAndDraw env next (Click.detectAndDraw env estimate st))
        = Click.canvas (Click.detectAndDraw env next st)) /\
  (forall next canvas,
      Hover.detectAndDraw env next (Hover.detectAndDraw env estimate canvas)
        = Hover.detectAndDraw env next canvas).
Proof.
  intros Hv Hd Hc Hr Hfail.
  assert (Hclick : forall st, Click.canvas (Click.detectAndDraw env estimate st) = []).
  { intros st. unfold Click.detectAndDraw. rewrite Hv, Hd, Hc, Hr. simpl.
    destruct (context2d env); simpl; [| reflexivity].
    destruct (Video.paused video); [| reflexivity].
    destruct Hfail as [-> | [-> | (first & rest & -> & Hno)]]; try reflexivity.
    rewrite Hno. reflexivity. }
  split; [exact Hclick |]. split; [| split].
  - intros Hw Hh canvas. unfold Hover.detectAndDraw.
    rewrite Hv, Hd, Hc, Hr, Hw, Hh. simpl.
    destruct (context2d env); simpl; [| reflexivity].
    destruct Hfail as [-> | [-> | (first & rest & -> & Hno)]]; try reflexivity.
    rewrite Hno. reflexivity.
  - intros next st. unfold Click.detectAndDraw at 1 3. rewrite Hv, Hd, Hc, Hr. simpl.
    destruct (context2d env); simpl; [| reflexivity].
    destruct (Video.paused video); [| reflexivity].
    destruct next as [| poses]; [reflexivity |].
    destruct poses as [| first rest]; [reflexivity |].
    destruct (Pose.keypoints first); reflexivity.
  - intros next canvas. unfold Hover.detectAndDraw. rewrite Hv, Hd, Hc, Hr. simpl.
    destruct (_ || _); [reflexivity |].
    destruct (context2d env); reflexivity.
Qed.

(** On the sample video, a throwing estimation blanks what an earlier cycle
    painted. *)
Lemma C3_failed_cycle_witness :
  Click.canvas
    (Click.detectAndDraw Sample.env Throws (Click.mkState Sample.earlier None None))
    = [].
Proof.
  apply (proj1 (C3_failed_cycle_clears Math.axisEngine Sample.env Sample.video Throws
                  eq_refl eq_refl eq_refl eq_refl (or_introl eq_refl))).
Defined.

(** ** Hit testing *)

Section HitTest.

Lemma find_first {A} (p : A -> bool) (before : list A) (hit : A) (after : list A) :
  Forall (fun a => p a = false) before -> p hit = true ->
  find p (before ++ hit :: after) = Some hit.
Proof.
  intros Hbefore Hhit. induction Hbefore as [| a before Ha _ IH]; simpl.
  - rewrite Hhit. reflexivity.
  - rewrite Ha. exact IH.
Qed.

Lemma find_nothing {A} (p : A -> bool) (l : list A) :
  Forall (fun a => p a = false) l -> find p l = None.
Proof.
  intros Hall. induction Hall as [| a l Ha _ IH]; simpl.
  - reflexivity.
  - rewrite Ha. exact IH.
Qed.

End HitTest.


(** ** Joint angles *)

Section Angles.
Context `{Math.Engine}.

Lemma calculateJointAngle_elbow map jointName :
  JS.includes jointName "elbow" = true ->
  Overlay.calculateJointAngle map jointName =
    match map !! (Overlay.sideOf jointName +:+ "_shoulder"),
          map !! (Overlay.sideOf jointName +:+ "_elbow"),
          map !! (Overlay.sideOf jointName +:+ "_wrist") with
    | Some shoulder, Some elbow, Some wrist =>
        Some (Overlay.cornerAngle shoulder elbow wrist)
    | _, _, _ => None
    end.
Proof. intros He. unfold Overlay.calculateJointAngle. rewrite He. reflexivity. Qed.

Lemma calculateJointAngle_knee map jointName :
  JS.includes jointName "elbow" = false ->
  JS.includes jointName "knee" = true ->
  Overlay.calculateJointAngle map jointName =
    match map !! (Overlay.sideOf jointName +:+ "_hip"),
          map !! (Overlay.sideOf jointName +:+ "_knee"),
          map !! (Overlay.sideOf jointName +:+ "_ankle") with
    | Some hip, Some knee, Some ankle => Some (Overlay.cornerAngle hip knee ankle)
    | _, _, _ => None
    end.
Proof.
  intros He Hk. unfold Overlay.calculateJointAngle. rewrite He, Hk. reflexivity.
Qed.

(** A right angle at [b], with [a] on the negative x-axis from [b] and [c]
    above it. *)
Lemma cornerAngle_right (a b c : Keypoint.t) :
  Math.atan2_on_axes ->
  (Keypoint.x a, Keypoint.y a) = (0, 0) ->
  (Keypoint.x b, Keypoint.y b) = (1, 0) ->
  (Keypoint.x c, Keypoint.y c) = (1, 1) ->
  Overlay.cornerAngle a b c = 90.
Proof.
  intros [Hup Hleft] Ha Hb Hc.
  injection Ha as Hax Hay. injection Hb as Hbx Hby. injection Hc as Hcx Hcy.
  unfold Overlay.cornerAngle. rewrite Hax, Hay, Hbx, Hby, Hcx, Hcy.
  change (1 - 0) with 1. change (1 - 1) with 0.
  change (0 - 0) with 0. change (0 - 1) with (-1).
  rewrite Hup, Hleft. reflexivity.
Qed.

End Angles.

(** C2, as the claim states it, fails for a name that contains both ['elbow']
    and ['knee']: the elbow branch is taken and the knee landmarks are not
    consulted.  The map holds the left hip, knee and ankle (so ['left_knee']
    has an angle) and no shoulder. *)
Lemma C2_counterexample :
  JS.includes "left_knee_elbow" "knee" = true /\
  (exists hip knee ankle,
      Overlay.keypointMap Sample.leg !! "left_hip" = Some hip /\
      Overlay.keypointMap Sample.leg !! "left_knee" = Some knee /\
      Overlay.keypointMap Sample.leg !! "left_ankle" = Some ankle) /\
  @Overlay.calculateJointAngle Math.axisEngine
     (Overlay.keypointMap Sample.leg) "left_knee" = Some 90 /\
  @Overlay.calculateJointAngle Math.axisEngine
     (Overlay.keypointMap Sample.leg) "left_knee_elbow" = None.
Proof.
  split; [reflexivity |]. split; [| split; reflexivity].
  eexists _, _, _. repeat split; reflexivity.
Qed.

(** C2 (amended): with [side] = ['left'] if the name contains ['left'], else
    ['right']:
    - if the name contains ['elbow'] and the map holds [side_shoulder],
      [side_elbow] and [side_wrist], the result is
      [|round(degrees(atan2(wrist - elbow) - atan2(shoulder - elbow)))|];
    - if the name contains ['knee'] and not ['elbow'], likewise with hip, knee
      and ankle;
    - for any other name (['left_hip'], for one), or when one of the three
      landmarks is missing, the result is [null];
    - for shoulder (0,0), elbow (1,0), wrist (1,1) the result is 90, given
      the values ECMAScript fixes for [atan2] on the half-axes. *)
Theorem C2_joint_angle (E : Math.Engine) (map : gmap string Keypoint.t)
    (jointName : string) :
  (JS.includes jointName "elbow" = true ->
   forall shoulder elbow wrist,
     map !! (Overlay.sideOf jointName +:+ "_shoulder") = Some shoulder ->
     map !! (Overlay.sideOf jointName +:+ "_elbow") = Some elbow ->
     map !! (Overlay.sideOf jointName +:+ "_wrist") = Some wrist ->
     Overlay.calculateJointAngle map jointName =
       Some (abs (Math.round
                    ((Math.atan2 (Keypoint.y wrist - Keypoint.y elbow)
                                 (Keypoint.x wrist - Keypoint.x elbow)
                      - Math.atan2 (Keypoint.y shoulder - Keypoint.y elbow)
                                   (Keypoint.x shoulder - Keypoint.x elbow))
                     * (180 / Math.PI))))) /\
  (JS.includes jointName "elbow" = false -> JS.includes jointName "knee" = true ->
   forall hip knee ankle,
     map !! (Overlay.sideOf jointName +:+ "_hip") = Some hip ->
     map !! (Overlay.sideOf jointName +:+ "_knee") = Some knee ->
     map !! (Overlay.sideOf jointName +:+ "_ankle") = Some ankle ->
     Overlay.calculateJointAngle map jointName =
       Some (abs (Math.round
                    ((Math.atan2 (Keypoint.y ankle - Keypoint.y knee)
                                 (Keypoint.x ankle - Keypoint.x knee)
                      - Math.atan2 (Keypoint.y hip - Keypoint.y knee)
                                   (Keypoint.x hip - Keypoint.x knee))
                     * (180 / Math.PI))))) /\
  (JS.includes jointName "elbow" = false -> JS.includes jointName "knee" = false ->
   Overlay.calculateJointAngle map jointName = None) /\
  Overlay.calculateJointAngle map "left_hip" = None /\
  (JS.includes jointName "elbow" = true ->
   map !! (Overlay.sideOf jointName +:+ "_shoulder") = None \/
   map !! (Overlay.sideOf jointName +:+ "_elbow") = None \/
   map !! (Overlay.sideOf jointName +:+ "_wrist") = None ->
   Overlay.calculateJointAngle map jointName = None) /\
  (JS.includes jointName "elbow" = false -> JS.includes jointName "knee" = true ->
   map !! (Overlay.sideOf jointName +:+ "_hip") = None \/
   map !! (Overlay.sideOf jointName +:+ "_knee") = None \/
   map !! (Overlay.sideOf jointName +:+ "_ankle") = None ->
   Overlay.calculateJointAngle map jointName = None) /\
  (Math.atan2_on_axes ->
   forall shoulder elbow wrist,
     map !! "left_shoulder" = Some shoulder ->
     map !! "left_elbow" = Some elbow ->
     map !! "left_wrist" = Some wrist ->
     (Keypoint.x shoulder, Keypoint.y shoulder) = (0, 0) ->
     (Keypoint.x elbow, Keypoint.y elbow) = (1, 0) ->
     (Keypoint.x wrist, Keypoint.y wrist) = (1, 1) ->
     Overlay.calculateJointAngle map "left_elbow" = Some 90).
Proof.
  repeat apply conj.
  - intros He shoulder elbow wrist Hs Hel Hw.
    rewrite (calculateJointAngle_elbow map jointName He), Hs, Hel, Hw. reflexivity.
  - intros He Hk hip knee ankle Hh Hkn Ha.
    rewrite (calculateJointAngle_knee map jointName He Hk), Hh, Hkn, Ha. reflexivity.
  - intros He Hk. unfold Overlay.calculateJointAngle. rewrite He, Hk. reflexivity.
  - reflexivity.
  - intros He Hmiss. rewrite (calculateJointAngle_elbow map jointName He).
    destruct Hmiss as [-> | [-> | ->]];
      repeat match goal with |- context [match ?m !! ?k with _ => _ end] =>
        destruct (m !! k) end; reflexivity.
  - intros He Hk Hmiss. rewrite (calculateJointAngle_knee map jointName He Hk).
    destruct Hmiss as [-> | [-> | ->]];
      repeat match goal with |- context [match ?m !! ?k with _ => _ end] =>
        destruct (m !! k) end; reflexivity.
  - intros Haxes shoulder elbow wrist Hs Hel Hw Hsp Hep Hwp.
    rewrite (calculateJointAngle_elbow map "left_elbow" eq_refl).
    change (Overlay.sideOf "left_elbow" +:+ "_shoulder") with "left_shoulder".
    change (Overlay.sideOf "left_elbow" +:+ "_elbow") with "left_elbow".
    change (Overlay.sideOf "left_elbow" +:+ "_wrist") with "left_wrist".
    rewrite Hs, Hel, Hw. f_equal. apply cornerAngle_right; assumption.
Qed.

(** The unit arm of the claim, on an engine that knows the half-axes. *)
Lemma C2_joint_angle_witness :
  @Overlay.calculateJointAngle Math.axisEngine
     (Overlay.keypointMap Sample.unitArm) "left_elbow" = Some 90.
Proof.
  refine (proj2 (proj2 (proj2 (proj2 (proj2 (proj2
            (C2_joint_angle Math.axisEngine
               (Overlay.keypointMap Sample.unitArm) "left_elbow"))))))
            _
            (Keypoint.mk "left_shoulder" 0 0 (Some 0.9))
            (Keypoint.mk "left_elbow" 1 0 (Some 0.9))
            (Keypoint.mk "left_wrist" 1 1 (Some 0.9))
            eq_refl eq_refl eq_refl eq_refl eq_refl eq_refl).
  split; reflexivity.
Defined.

(** ** Confidence filtering *)

Section Confidence.

(** [score && score > 0.3] says that the score is there and above 0.3. *)
Lemma scoreAbove_iff (kp : Keypoint.t) :
  Overlay.scoreAbove kp = true <->
  exists s, Keypoint.score kp = Some s /\ (0.3 <? s) = true.
Proof.
  unfold Overlay.scoreAbove, JS.truthyOpt, Cmp.gt.
  destruct (Keypoint.score kp) as [s |]; split.
  - intros Hs. apply andb_true_iff in Hs. exists s. tauto.
  - intros (s' & Hs' & Hgt). injection Hs' as <-. rewrite Hgt, andb_true_r.
    destruct (JS.truthy s) eqn:Ht; [reflexivity |].
    destruct (falsy_cases s Ht) as [-> | [-> | ->]]; vm_compute in Hgt; discriminate.
  - discriminate.
  - intros (s' & Hs' & _). discriminate.
Qed.

(** [!score || score < 0.3] fails when the score is there, truthy and not
    below 0.3. *)
Lemma scoreBelow_iff (kp : Keypoint.t) :
  Overlay.scoreBelow kp = false <->
  exists s, Keypoint.score kp = Some s /\ JS.truthy s = true /\ (s <? 0.3) = false.
Proof.
  unfold Overlay.scoreBelow, JS.truthyOpt, Cmp.lt.
  destruct (Keypoint.score kp) as [s |]; split.
  - intros Hs. apply orb_false_iff in Hs. destruct Hs as [Ht Hlt].
    apply negb_false_iff in Ht. exists s. auto.
  - intros (s' & Hs' & Ht & Hlt). injection Hs' as <-. rewrite Ht, Hlt. reflexivity.
  - discriminate.
  - intros (s' & Hs' & _). discriminate.
Qed.

(** A keypoint above the threshold is not rejected where the test is
    [score < 0.3]. *)
Lemma scoreAbove_not_below (kp : Keypoint.t) :
  Overlay.scoreAbove kp = true -> Overlay.scoreBelow kp = false.
Proof.
  intros Habove. apply scoreBelow_iff.
  destruct (proj1 (scoreAbove_iff kp) Habove) as (s & Hs & Hgt).
  exists s. split; [exact Hs |]. split; [| apply ltb_asym; exact Hgt].
  unfold Overlay.scoreAbove in Habove. rewrite Hs in Habove.
  apply andb_true_iff in Habove. apply Habove.
Qed.

Lemma filter_idempotent {A} (p : A -> bool) (l : list A) :
  List.filter p (List.filter p l) = List.filter p l.
Proof.
  induction l as [| a l IH]; simpl; [reflexivity |].
  destruct (p a) eqn:Ha; simpl; rewrite ?Ha, IH; reflexivity.
Qed.

Lemma drawMarkers_In (env : Env) (keypoints : list Keypoint.t) (op : DrawOp) :
  In op (Click.drawMarkers env keypoints) <->
  exists kp, In kp keypoints /\ Overlay.scoreAbove kp = true /\
             op = Overlay.marker (videoRef env) kp.
Proof.
  unfold Click.drawMarkers. rewrite in_flat_map. split.
  - intros (kp & Hin & Hop). exists kp. split; [exact Hin |].
    destruct (Overlay.scoreAbove kp); [| destruct Hop].
    destruct Hop as [<- | []]. auto.
  - intros (kp & Hin & Habove & ->). exists kp. split; [exact Hin |].
    rewrite Habove. left. reflexivity.
Qed.

Lemma drawConnection_In videoRef (map : gmap string Keypoint.t)
    (c : string * string) (op : DrawOp) :
  In op (Overlay.drawConnection videoRef map c) ->
  exists startPoint endPoint,
    map !! fst c = Some startPoint /\ map !! snd c = Some endPoint /\
    Overlay.scoreAbove startPoint = true /\ Overlay.scoreAbove endPoint = true.
Proof.
  unfold Overlay.drawConnection, Overlay.scoreAbove.
  destruct (map !! fst c) as [startPoint |]; [| intros []].
  destruct (map !! snd c) as [endPoint |]; [| intros []].
  destruct (JS.truthyOpt (Keypoint.score startPoint)) eqn:Hts,
           (JS.truthyOpt (Keypoint.score endPoint)) eqn:Hte,
           (Cmp.gt (Keypoint.score startPoint) 0.3) eqn:Hgs,
           (Cmp.gt (Keypoint.score endPoint) 0.3) eqn:Hge; simpl;
    intros Hin; try (destruct Hin; fail).
  exists startPoint, endPoint. rewrite Hts, Hte, Hgs, Hge. auto.
Qed.

Lemma drawKeypoint_some `{Math.Engine} env map keypoint :
  Hover.drawKeypoint env map keypoint <> [] -> Overlay.scoreBelow keypoint = false.
Proof.
  unfold Hover.drawKeypoint. destruct (Overlay.scoreBelow keypoint); congruence.
Qed.

(** The angle reads the landmarks' positions only. *)
Lemma calculateJointAngle_positions `{Math.Engine}
    (map map' : gmap string Keypoint.t) (jointName : string) :
  (forall key,
      match map !! key, map' !! key with
      | Some a, Some b => Keypoint.x a = Keypoint.x b /\ Keypoint.y a = Keypoint.y b
      | None, None => True
      | _, _ => False
      end) ->
  Overlay.calculateJointAngle map jointName
    = Overlay.calculateJointAngle map' jointName.
Proof.
  intros Hsame. unfold Overlay.calculateJointAngle, Overlay.cornerAngle.
  destruct (JS.includes jointName "elbow");
    [| destruct (JS.includes jointName "knee"); [| reflexivity]].
  - pose proof (Hsame (Overlay.sideOf jointName +:+ "_shoulder")) as H1.
    pose proof (Hsame (Overlay.sideOf jointName +:+ "_elbow")) as H2.
    pose proof (Hsame (Overlay.sideOf jointName +:+ "_wrist")) as H3.
    destruct (map !! _), (map' !! _); try contradiction; try reflexivity;
      destruct (map !! _), (map' !! _); try contradiction; try reflexivity;
      destruct (map !! _), (map' !! _); try contradiction; try reflexivity.
    destruct H1 as [-> ->], H2 as [-> ->], H3 as [-> ->]. reflexivity.
  - pose proof (Hsame (Overlay.sideOf jointName +:+ "_hip")) as H1.
    pose proof (Hsame (Overlay.sideOf jointName +:+ "_knee")) as H2.
    pose proof (Hsame (Overlay.sideOf jointName +:+ "_ankle")) as H3.
    destruct (map !! _), (map' !! _); try contradiction; try reflexivity;
      destruct (map !! _), (map' !! _); try contradiction; try reflexivity;
      destruct (map !! _), (map' !! _); try contradiction; try reflexivity.
    destruct H1 as [-> ->], H2 as [-> ->], H3 as [-> ->]. reflexivity.
Qed.

End Confidence.

(** C1, as the claim states it, fails for joint-angle landmarks: the sample
    shoulder has score 0.29, is not above the threshold, and is the landmark
    of the elbow's angle all the same.  Clicking the elbow reports 90 degrees,
    and 180 once that shoulder is moved above the elbow. *)
Lemma C1_counterexample :
  Keypoint.score Sample.shoulder = Some 0.29 /\
  Overlay.scoreAbove Sample.shoulder = false /\
  Overlay.keypointMap Sample.arm !! "left_shoulder" = Some Sample.shoulder /\
  Click.clickedJoint
    (@Click.handleCanvasClick Math.axisEngine Sample.env 100 0
       (Click.mkState [] (Some Sample.arm) None))
    = Some (Click.Joint.mk "left_elbow" (Some 90) 100 0) /\
  Click.clickedJoint
    (@Click.handleCanvasClick Math.axisEngine Sample.env 100 0
       (Click.mkState [] (Some Sample.raisedArm) None))
    = Some (Click.Joint.mk "left_elbow" (Some 180) 100 0).
Proof. repeat split; reflexivity. Qed.

(** C1 (amended): each use filters by score itself.
    - A keypoint passes [score > 0.3] exactly when its score is there and
      strictly above 0.3; only such keypoints get a marker in the click
      player, end a skeleton segment, or enter a bounding box.
    - The hit test and the hover player's markers and tooltips take only
      keypoints whose score is there, truthy and not below 0.3; every keypoint
      above 0.3 is among them.
    - Joint-angle landmarks are looked up by name in the map of all
      keypoints, and the angle reads their positions only, not their scores.
    - On the sample pose the hip, with score 0.29, gets no marker, no
      segment, no part in the bounding box and no hit; the ankle, with score
      0.31, gets all of them. *)
Theorem C1_confidence_filtering (E : Math.Engine) :
  (forall kp,
      Overlay.scoreAbove kp = true <->
      exists s, Keypoint.score kp = Some s /\ (0.3 <? s) = true) /\
  (forall env keypoints op,
      In op (Click.drawMarkers env keypoints) <->
      exists kp, In kp keypoints /\ Overlay.scoreAbove kp = true /\
                 op = Overlay.marker (videoRef env) kp) /\
  (forall videoRef map c op,
      In op (Overlay.drawConnection videoRef map c) ->
      exists startPoint endPoint,
        map !! fst c = Some startPoint /\ map !! snd c = Some endPoint /\
        Overlay.scoreAbove startPoint = true /\ Overlay.scoreAbove endPoint = true) /\
  (forall env keypoints,
      Click.applyDimmingEffect env keypoints
        = Click.applyDimmingEffect env (List.filter Overlay.scoreAbove keypoints) /\
      Hover.calculateBoundingBox keypoints
        = Hover.calculateBoundingBox (List.filter Overlay.scoreAbove keypoints)) /\
  (forall env clickX clickY map kp,
      (Click.isHit env clickX clickY kp = true \/ Hover.drawKeypoint env map kp <> []) ->
      exists s, Keypoint.score kp = Some s /\ JS.truthy s = true /\
                (s <? 0.3) = false) /\
  (forall kp, Overlay.scoreAbove kp = true -> Overlay.scoreBelow kp = false) /\
  (forall map map' jointName,
      (forall key,
          match map !! key, map' !! key with
          | Some a, Some b =>
              Keypoint.x a = Keypoint.x b /\ Keypoint.y a = Keypoint.y b
          | None, None => True
          | _, _ => False
          end) ->
      Overlay.calculateJointAngle map jointName
        = Overlay.calculateJointAngle map' jointName) /\
  (Keypoint.score Sample.hip = Some 0.29 /\
   Keypoint.score Sample.ankle = Some 0.31 /\
   Click.drawOverlay Sample.env [Sample.knee; Sample.hip; Sample.ankle]
     = [ DimLayer 640 360; Spotlight 270 150 110 200; Bone 320 200 330 300;
         Marker 320 200 "#FFA500"; Marker 330 300 "#FFA500" ] /\
   Overlay.marker (videoRef Sample.env) Sample.hip = Marker 300 100 "#00FF00" /\
   Overlay.marker (videoRef Sample.env) Sample.ankle = Marker 330 300 "#FFA500" /\
   Hover.calculateBoundingBox [Sample.knee; Sample.hip; Sample.ankle]
     = Some (Hover.Box.mk 960 600 30 300) /\
   Click.isHit Sample.env 300 100 Sample.hip = false /\
   Click.isHit Sample.env 330 300 Sample.ankle = true /\
   Hover.drawKeypoint Sample.env (Overlay.keypointMap []) Sample.hip = [] /\
   Hover.drawKeypoint Sample.env (Overlay.keypointMap []) Sample.ankle
     = [Marker 330 300 "#FFA500"]).
Proof.
  repeat apply conj; try reflexivity.
  - apply scoreAbove_iff.
  - apply drawMarkers_In.
  - apply drawConnection_In.
  - intros env keypoints. split.
    + unfold Click.applyDimmingEffect. rewrite filter_idempotent. reflexivity.
    + unfold Hover.calculateBoundingBox. rewrite filter_idempotent. reflexivity.
  - intros env clickX clickY map kp Hused. apply scoreBelow_iff.
    destruct Hused as [Hhit | Hdrawn].
    + unfold Click.isHit in Hhit.
      destruct (Overlay.scoreBelow kp); [discriminate | reflexivity].
    + apply (drawKeypoint_some env map kp Hdrawn).
  - apply scoreAbove_not_below.
  - apply calculateJointAngle_positions.
Qed.

(** The ankle of the sample pose, with score 0.31, gets its marker. *)
Lemma C1_confidence_witness :
  In (Marker 330 300 "#FFA500")
     (Click.drawMarkers Sample.env [Sample.knee; Sample.hip; Sample.ankle]).
Proof.
  apply (proj2 (proj1 (proj2 (C1_confidence_filtering Math.axisEngine))
                  Sample.env [Sample.knee; Sample.hip; Sample.ankle]
                  (Marker 330 300 "#FFA500"))).
  exists Sample.ankle. split; [right; right; left; reflexivity |].
  split; reflexivity.
Defined.

(** ** The hit test *)

Section Boundary.

Lemma SFcompare_Gt_Lt (a b : spec_float) :
  SFcompare a b = Some Gt -> SFcompare b a = Some Lt.
Proof.
  destruct a as [sa | sa | | sa ma ea], b as [sb | sb | | sb mb eb];
    simpl; try discriminate;
    try (destruct sa; try destruct sb; simpl; congruence).
  destruct sa, sb; try congruence;
    rewrite (Z.compare_antisym ea eb);
    destruct (ea ?= eb)%Z; simpl; try congruence;
    rewrite (ZC4 mb ma);
    destruct (Pos.compare_cont Eq ma mb); simpl; congruence.
Qed.

Lemma SFcompare_None (a b : spec_float) :
  SFcompare a b = None -> a = S754_nan \/ b = S754_nan.
Proof.
  destruct a as [sa | sa | | sa ma ea], b as [sb | sb | | sb mb eb];
    simpl; try discriminate; try tauto;
    try (destruct sa; try destruct sb; simpl; discriminate).
Qed.

Lemma not_nan_spec (v : float) : is_nan v = false -> Prim2SF v <> S754_nan.
Proof.
  unfold is_nan. rewrite FloatAxioms.eqb_spec. intros Hn E. rewrite E in Hn.
  discriminate.
Qed.

(** Two numbers neither of which is below the other are equal. *)
Lemma neither_below (a b : float) :
  is_nan a = false -> is_nan b = false ->
  (a <? b) = false -> (b <? a) = false -> (a =? b) = true.
Proof.
  intros Ha Hb. rewrite !FloatAxioms.ltb_spec, FloatAxioms.eqb_spec.
  unfold SFltb, SFeqb. intros Hab Hba.
  destruct (SFcompare (Prim2SF a) (Prim2SF b)) as [[ | | ] | ] eqn:E.
  - reflexivity.
  - discriminate.
  - rewrite (SFcompare_Gt_Lt _ _ E) in Hba. discriminate.
  - destruct (SFcompare_None _ _ E) as [En | En];
      [apply not_nan_spec in Ha | apply not_nan_spec in Hb]; contradiction.
Qed.

(** The two score tests of the click player differ at one score only. *)
Lemma scoreBelow_boundary (kp : Keypoint.t) :
  Overlay.scoreBelow kp = false ->
  Overlay.scoreAbove kp = true \/
  exists s, Keypoint.score kp = Some s /\ (s =? 0.3) = true.
Proof.
  intros Hb. destruct (proj1 (scoreBelow_iff kp) Hb) as (s & Hs & Ht & Hlt).
  destruct (0.3 <? s) eqn:Hgt.
  - left. apply scoreAbove_iff. exists s. split; assumption.
  - right. exists s. split; [exact Hs |].
    unfold JS.truthy in Ht. apply negb_true_iff, orb_false_iff in Ht.
    apply neither_below; [apply Ht | reflexivity | exact Hlt | exact Hgt].
Qed.

End Boundary.

(** C5: on a click on the paused player, [handleCanvasClick] selects the
    first keypoint, in the order of the pose's keypoint list, that passes the
    hit test's score test and whose mapped position is at a Euclidean distance
    strictly below 15px from the pointer (it need not be the nearest), and
    clears the selection when no keypoint qualifies; a pointer 14.9px from a
    mapped joint hits it and one 15.1px away does not.  The score test of the
    hit test is [!score || score < 0.3]: it takes a score that is there,
    truthy and not below 0.3, where markers are drawn for [score > 0.3].
    Every keypoint above 0.3 passes it, and a keypoint that passes it is
    above 0.3 or has a score equal to 0.3.  At that score the two differ: on
    the pose of an ear with score 0.3 followed by an eye with score 0.9, the
    ear gets no marker, and a click 9px from the ear and 1px from the eye
    selects the ear, where the first keypoint above 0.3 within 15px is the
    eye. *)
Theorem C5_first_hit_within_radius (E : Math.Engine) :
  (forall env clickX clickY keypoint,
      Click.isHit env clickX clickY keypoint = true <->
      (exists s, Keypoint.score keypoint = Some s /\
                 JS.truthy s = true /\ (s <? 0.3) = false) /\
      (sqrt (Math.pow2 (clickX - fst (Overlay.mapToDisplaySpace (videoRef env)
                                        (Keypoint.x keypoint) (Keypoint.y keypoint)))
             + Math.pow2 (clickY - snd (Overlay.mapToDisplaySpace (videoRef env)
                                          (Keypoint.x keypoint) (Keypoint.y keypoint))))
         <? 15) = true) /\
  (forall env clickX clickY keypoint,
      (Click.isHit env clickX clickY keypoint = true ->
       (exists s, Keypoint.score keypoint = Some s /\ (0.3 <? s) = true) \/
       (exists s, Keypoint.score keypoint = Some s /\ (s =? 0.3) = true)) /\
      ((exists s, Keypoint.score keypoint = Some s /\ (0.3 <? s) = true) ->
       (sqrt (Math.pow2 (clickX - fst (Overlay.mapToDisplaySpace (videoRef env)
                                         (Keypoint.x keypoint) (Keypoint.y keypoint)))
              + Math.pow2 (clickY - snd (Overlay.mapToDisplaySpace (videoRef env)
                                           (Keypoint.x keypoint) (Keypoint.y keypoint))))
          <? 15) = true ->
       Click.isHit env clickX clickY keypoint = true)) /\
  (forall env video clickX clickY st keypoints,
      videoRef env = Some video -> Video.paused video = true ->
      canvasRef env = true -> Click.currentKeypoints st = Some keypoints ->
      (forall before hit after,
          keypoints = before ++ hit :: after ->
          Forall (fun k => Click.isHit env clickX clickY k = false) before ->
          Click.isHit env clickX clickY hit = true ->
          Click.clickedJoint (Click.handleCanvasClick env clickX clickY st)
            = Some (Click.jointDetail env keypoints hit)) /\
      (Forall (fun k => Click.isHit env clickX clickY k = false) keypoints ->
       Click.clickedJoint (Click.handleCanvasClick env clickX clickY st) = None)) /\
  (Click.isHit Sample.env 14.9 0 Sample.corner = true /\
   Click.isHit Sample.env 15.1 0 Sample.corner = false /\
   Click.isHit Sample.env 0 14.9 Sample.corner = true /\
   Click.isHit Sample.env 0 15.1 Sample.corner = false) /\
  (Sample.faint = Keypoint.mk "left_ear" 300 300 (Some 0.3) /\
   Sample.eye = Keypoint.mk "left_eye" 330 300 (Some 0.9) /\
   Overlay.mapToDisplaySpace (videoRef Sample.env) 300 300 = (100, 100) /\
   Overlay.mapToDisplaySpace (videoRef Sample.env) 330 300 = (110, 100) /\
   Click.drawMarkers Sample.env [Sample.faint; Sample.eye]
     = [Marker 110 100 (Overlay.getJointColor "left_eye")] /\
   Click.clickedJoint
     (Click.handleCanvasClick Sample.env 109 100
        (Click.mkState [] (Some [Sample.faint; Sample.eye]) None))
     = Some (Click.Joint.mk "left_ear" None 100 100) /\
   find (fun k => Cmp.gt (Keypoint.score k) 0.3 &&
                  (sqrt (Math.pow2 (109 - fst (Overlay.mapToDisplaySpace
                                                 (videoRef Sample.env)
                                                 (Keypoint.x k) (Keypoint.y k)))
                         + Math.pow2 (100 - snd (Overlay.mapToDisplaySpace
                                                   (videoRef Sample.env)
                                                   (Keypoint.x k) (Keypoint.y k))))
                     <? 15))
        [Sample.faint; Sample.eye]
     = Some Sample.eye).
Proof.
  split; [| split; [| split; [| split]]].
  - intros env clickX clickY keypoint. unfold Click.isHit.
    rewrite <- scoreBelow_iff.
    destruct (Overlay.scoreBelow keypoint); split; try discriminate; try tauto.
    intros [? _]; discriminate.
  - intros env clickX clickY keypoint. split.
    + unfold Click.isHit. destruct (Overlay.scoreBelow keypoint) eqn:Hb;
        [discriminate |]. intros _.
      destruct (scoreBelow_boundary keypoint Hb) as [Ha | Heq];
        [left; apply scoreAbove_iff; exact Ha | right; exact Heq].
    + intros Ha Hd. unfold Click.isHit.
      rewrite (scoreAbove_not_below keypoint (proj2 (scoreAbove_iff keypoint) Ha)).
      exact Hd.
  - intros env video clickX clickY st keypoints Hv Hp Hc Hk.
    unfold Click.handleCanvasClick. rewrite Hv, Hk, Hp. simpl. rewrite Hc. simpl.
    split.
    + intros before hit after -> Hbefore Hhit.
      rewrite (find_first _ before hit after Hbefore Hhit). reflexivity.
    + intros Hnone. rewrite (find_nothing _ keypoints Hnone). reflexivity.
  - repeat split; reflexivity.
  - repeat split; reflexivity.
Qed.

(** The pointer is 9px from the nose and 1px from the eye; the nose comes
    first in the list and is the one selected.  A pointer far from both
    clears the selection. *)
Lemma C5_first_hit_witness :
  Click.clickedJoint
    (@Click.handleCanvasClick Math.axisEngine Sample.env 109 100
       (Click.mkState [] (Some [Sample.nose; Sample.eye]) None))
    = Some (Click.Joint.mk "nose" None 100 100) /\
  Click.clickedJoint
    (@Click.handleCanvasClick Math.axisEngine Sample.env 500 300
       (Click.mkState [] (Some [Sample.nose; Sample.eye])
          (Some (Click.Joint.mk "nose" None 100 100))))
    = None.
Proof.
  split.
  - refine (proj1 (proj1 (proj2 (proj2 (C5_first_hit_within_radius Math.axisEngine)))
                     Sample.env Sample.video 109 100
                     (Click.mkState [] (Some [Sample.nose; Sample.eye]) None)
                     [Sample.nose; Sample.eye] eq_refl eq_refl eq_refl eq_refl)
             [] Sample.nose [Sample.eye] eq_refl _ eq_refl).
    constructor.
  - refine (proj2 (proj1 (proj2 (proj2 (C5_first_hit_within_radius Math.axisEngine)))
                     Sample.env Sample.video 500 300
                     (Click.mkState [] (Some [Sample.nose; Sample.eye])
                        (Some (Click.Joint.mk "nose" None 100 100)))
                     [Sample.nose; Sample.eye] eq_refl eq_refl eq_refl eq_refl) _).
    repeat constructor.
Defined.

(** * Further properties of the overlay code *)

(** ** Order on binary64 numbers *)

Section FloatOrder.

Lemma SFcompare_Lt_trans (a b c : spec_float) :
  SFcompare a b = Some Lt -> SFcompare b c = Some Lt -> SFcompare a c = Some Lt.
Proof.
  destruct a as [sa | sa | | sa ma ea], b as [sb | sb | | sb mb eb],
           c as [sc | sc | | sc mc ec]; simpl; try discriminate;
    try (destruct sa; try destruct sb; try destruct sc; simpl; congruence).
  destruct sa, sb, sc; try congruence;
    change (Pos.compare_cont Eq) with Pos.compare;
    destruct (Z.compare_spec ea eb), (Z.compare_spec eb ec), (Z.compare_spec ea ec);
    try congruence; try lia; subst;
    destruct (Pos.compare_spec ma mb), (Pos.compare_spec mb mc),
             (Pos.compare_spec ma mc);
    simpl; try congruence; try lia.
Qed.

Lemma ltb_true_iff (a b : float) :
  (a <? b) = true <-> SFcompare (Prim2SF a) (Prim2SF b) = Some Lt.
Proof.
  rewrite FloatAxioms.ltb_spec. unfold SFltb.
  destruct (SFcompare _ _) as [[ | | ] | ]; split; congruence.
Qed.

Lemma ltb_trans (a b c : float) :
  (a <? b) = true -> (b <? c) = true -> (a <? c) = true.
Proof. rewrite !ltb_true_iff. apply SFcompare_Lt_trans. Qed.

(** Nothing is below or above [NaN]. *)
Lemma ltb_nan_r (a : float) : (a <? nan) = false.
Proof.
  rewrite FloatAxioms.ltb_spec. change (Prim2SF nan) with S754_nan.
  unfold SFltb. destruct (Prim2SF a); reflexivity.
Qed.

Lemma ltb_nan_l (a : float) : (nan <? a) = false.
Proof.
  rewrite FloatAxioms.ltb_spec. change (Prim2SF nan) with S754_nan. reflexivity.
Qed.

Lemma classify_NZero (v : float) : classify v = NZero -> Prim2SF v = S754_zero true.
Proof.
  rewrite FloatAxioms.classify_spec. unfold SF64classify, SFclassify.
  destruct (Prim2SF v) as [[ | ] | [ | ] | | [ | ] m e]; try discriminate;
    try reflexivity; destruct (Z.eqb _ _); discriminate.
Qed.

Lemma classify_PZero (v : float) : classify v = PZero -> Prim2SF v = S754_zero false.
Proof.
  rewrite FloatAxioms.classify_spec. unfold SF64classify, SFclassify.
  destruct (Prim2SF v) as [[ | ] | [ | ] | | [ | ] m e]; try discriminate;
    try reflexivity; destruct (Z.eqb _ _); discriminate.
Qed.

(** Comparisons do not see the sign of a zero. *)
Lemma ltb_zero_r (a z z' : float) (s s' : bool) :
  Prim2SF z = S754_zero s -> Prim2SF z' = S754_zero s' -> (a <? z) = (a <? z').
Proof.
  intros Hz Hz'. rewrite !FloatAxioms.ltb_spec, Hz, Hz'.
  destruct (Prim2SF a); reflexivity.
Qed.

Lemma ltb_zero_l (a z z' : float) (s s' : bool) :
  Prim2SF z = S754_zero s -> Prim2SF z' = S754_zero s' -> (z <? a) = (z' <? a).
Proof.
  intros Hz Hz'. rewrite !FloatAxioms.ltb_spec, Hz, Hz'.
  destruct (Prim2SF a); reflexivity.
Qed.

(** An absolute value is never negative. *)
Lemma abs_not_neg (v : float) : (abs v <? 0) = false.
Proof.
  rewrite FloatAxioms.ltb_spec, FloatAxioms.abs_spec.
  change (Prim2SF 0) with (S754_zero false).
  destruct (Prim2SF v) as [s | s | | s m e]; reflexivity.
Qed.

(** A finite number minus itself is [+0]. *)
Lemma sub_self_finite (v : float) : is_finite v = true -> v - v = 0.
Proof.
  unfold is_finite, is_nan, is_infinity. intros Hf.
  apply negb_true_iff, orb_false_iff in Hf. destruct Hf as [Hn Hi].
  rewrite FloatAxioms.eqb_spec in Hn. rewrite FloatAxioms.eqb_spec, FloatAxioms.abs_spec in Hi.
  change (Prim2SF infinity) with (S754_infinity false) in Hi.
  apply Prim2SF_inj. rewrite FloatAxioms.sub_spec.
  change (Prim2SF 0) with (S754_zero false). unfold SF64sub, SFsub.
  destruct (Prim2SF v) as [s | s | | s m e]; simpl in *; try discriminate.
  - destruct s; reflexivity.
  - rewrite Z.sub_diag. reflexivity.
Qed.

End FloatOrder.

(** ** [Math.min] and [Math.max] bound their arguments *)

Section Bounds.

Lemma min_step_cases (lowest n : float) :
  (Math.min_step lowest n = n /\
   ((n <? lowest) = true \/
    (Prim2SF n = S754_zero true /\ Prim2SF lowest = S754_zero false))) \/
  (Math.min_step lowest n = lowest /\ (n <? lowest) = false).
Proof.
  unfold Math.min_step.
  destruct (classify n) eqn:Hn, (classify lowest) eqn:Hl;
    try (destruct (n <? lowest) eqn:Hlt; [left | right]; auto; fail).
  left. split; [reflexivity |]. right.
  split; [apply classify_NZero | apply classify_PZero]; assumption.
Qed.

Lemma max_step_cases (highest n : float) :
  (Math.max_step highest n = n /\
   ((highest <? n) = true \/
    (Prim2SF n = S754_zero false /\ Prim2SF highest = S754_zero true))) \/
  (Math.max_step highest n = highest /\ (highest <? n) = false).
Proof.
  unfold Math.max_step.
  destruct (classify n) eqn:Hn, (classify highest) eqn:Hh;
    try (destruct (highest <? n) eqn:Hlt; [left | right]; auto; fail).
  left. split; [reflexivity |]. right.
  split; [apply classify_PZero | apply classify_NZero]; assumption.
Qed.

Lemma fold_min_bound (xs : list float) (acc x : float) :
  (x <? acc) = false \/ In x xs -> (x <? fold_left Math.min_step xs acc) = false.
Proof.
  revert acc. induction xs as [| n xs IH]; intros acc Hx; simpl.
  - destruct Hx as [Hx | []]. exact Hx.
  - apply IH.
    destruct (min_step_cases acc n) as [[-> Hwhy] | [-> Hnot]].
    + destruct Hx as [Hx | [<- | Hin]]; auto.
      * left. destruct Hwhy as [Hlt | [Hn Hacc]].
        -- destruct (x <? n) eqn:Hxn; [| reflexivity].
           rewrite (ltb_trans x n acc Hxn Hlt) in Hx. discriminate.
        -- rewrite (ltb_zero_r x n acc _ _ Hn Hacc). exact Hx.
      * left. apply ltb_irrefl.
    + destruct Hx as [Hx | [<- | Hin]]; auto.
Qed.

Lemma fold_max_bound (xs : list float) (acc x : float) :
  (acc <? x) = false \/ In x xs -> (fold_left Math.max_step xs acc <? x) = false.
Proof.
  revert acc. induction xs as [| n xs IH]; intros acc Hx; simpl.
  - destruct Hx as [Hx | []]. exact Hx.
  - apply IH.
    destruct (max_step_cases acc n) as [[-> Hwhy] | [-> Hnot]].
    + destruct Hx as [Hx | [<- | Hin]]; auto.
      * left. destruct Hwhy as [Hlt | [Hn Hacc]].
        -- destruct (n <? x) eqn:Hnx; [| reflexivity].
           rewrite (ltb_trans acc n x Hlt Hnx) in Hx. discriminate.
        -- rewrite (ltb_zero_l x n acc _ _ Hn Hacc). exact Hx.
      * left. apply ltb_irrefl.
    + destruct Hx as [Hx | [<- | Hin]]; auto.
Qed.

(** No argument is below the minimum. *)
Lemma min_lower_bound (xs : list float) (x : float) :
  In x xs -> (x <? Math.min xs) = false.
Proof.
  intros Hin. unfold Math.min. destruct (existsb is_nan xs).
  - apply ltb_nan_r.
  - apply fold_min_bound. right. exact Hin.
Qed.

(** No argument is above the maximum. *)
Lemma max_upper_bound (xs : list float) (x : float) :
  In x xs -> (Math.max xs <? x) = false.
Proof.
  intros Hin. unfold Math.max. destruct (existsb is_nan xs).
  - apply ltb_nan_l.
  - apply fold_max_bound. right. exact Hin.
Qed.

Lemma fold_step_In (step : float -> float -> float) (xs : list float) (acc : float) :
  (forall a n, step a n = a \/ step a n = n) ->
  fold_left step xs acc = acc \/ In (fold_left step xs acc) xs.
Proof.
  intros Hstep. revert acc. induction xs as [| n xs IH]; intros acc; simpl.
  - left. reflexivity.
  - destruct (IH (step acc n)) as [Heq | Hin]; [| right; right; exact Hin].
    rewrite Heq. destruct (Hstep acc n) as [-> | ->]; [left | right; left]; reflexivity.
Qed.

Lemma min_step_either (a n : float) :
  Math.min_step a n = a \/ Math.min_step a n = n.
Proof. destruct (min_step_cases a n) as [[-> _] | [-> _]]; auto. Qed.

Lemma max_step_either (a n : float) :
  Math.max_step a n = a \/ Math.max_step a n = n.
Proof. destruct (max_step_cases a n) as [[-> _] | [-> _]]; auto. Qed.

Lemma existsb_nan_In (xs : list float) : existsb is_nan xs = true -> In nan xs.
Proof.
  intros H. apply existsb_exists in H. destruct H as (x & Hin & Hn).
  rewrite <- (is_nan_eq x Hn). exact Hin.
Qed.

(** The minimum of a non-empty list is one of its elements. *)
Lemma min_In (xs : list float) : xs <> [] -> In (Math.min xs) xs.
Proof.
  intros Hne. unfold Math.min. destruct (existsb is_nan xs) eqn:Hnan.
  - apply existsb_nan_In, Hnan.
  - destruct xs as [| v xs]; [congruence |]. simpl in *.
    apply orb_false_iff in Hnan. destruct Hnan as [Hv _].
    rewrite (min_step_first v Hv).
    destruct (fold_step_In Math.min_step xs v min_step_either) as [-> | Hin]; auto.
Qed.

Lemma max_In (xs : list float) : xs <> [] -> In (Math.max xs) xs.
Proof.
  intros Hne. unfold Math.max. destruct (existsb is_nan xs) eqn:Hnan.
  - apply existsb_nan_In, Hnan.
  - destruct xs as [| v xs]; [congruence |]. simpl in *.
    apply orb_false_iff in Hnan. destruct Hnan as [Hv _].
    rewrite (max_step_first v Hv).
    destruct (fold_step_In Math.max_step xs v max_step_either) as [-> | Hin]; auto.
Qed.

End Bounds.

(** ** The keypoint map *)

Section KeypointMap.

Lemma keypointMap_snoc (keypoints : list Keypoint.t) (kp : Keypoint.t) :
  Overlay.keypointMap (keypoints ++ [kp]) =
    if String.eqb (Keypoint.name kp) "" then Overlay.keypointMap keypoints
    else <[Keypoint.name kp := kp]> (Overlay.keypointMap keypoints).
Proof. unfold Overlay.keypointMap. rewrite fold_left_app. reflexivity. Qed.

Lemma keypointMap_sound (keypoints : list Keypoint.t) (key : string) (kp : Keypoint.t) :
  Overlay.keypointMap keypoints !! key = Some kp ->
  In kp keypoints /\ Keypoint.name kp = key /\ key <> "".
Proof.
  induction keypoints as [| last keypoints IH] using rev_ind.
  - unfold Overlay.keypointMap. simpl. rewrite lookup_empty. discriminate.
  - rewrite keypointMap_snoc. intros Hlook.
    assert (Hold : Overlay.keypointMap keypoints !! key = Some kp ->
                   In kp (keypoints ++ [last]) /\ Keypoint.name kp = key /\ key <> "").
    { intros H. destruct (IH H) as (Hin & Hname & Hkey).
      split; [apply in_or_app; left; exact Hin | auto]. }
    destruct (String.eqb_spec (Keypoint.name last) "") as [Hempty | Hfull];
      [apply Hold, Hlook |].
    destruct (decide (Keypoint.name last = key)) as [Heq | Hne].
    + subst key. rewrite lookup_insert_eq in Hlook. injection Hlook as <-.
      split; [apply in_or_app; right; left; reflexivity | auto].
    + rewrite lookup_insert_ne in Hlook by exact Hne. apply Hold, Hlook.
Qed.

Lemma keypointMap_absent (keypoints : list Keypoint.t) (key : string) :
  Forall (fun kp => Keypoint.name kp <> key) keypoints ->
  Overlay.keypointMap keypoints !! key = None.
Proof.
  intros Hall. destruct (Overlay.keypointMap keypoints !! key) as [kp |] eqn:E;
    [| reflexivity].
  destruct (keypointMap_sound keypoints key kp E) as (Hin & Hname & _).
  rewrite List.Forall_forall in Hall. destruct (Hall kp Hin Hname).
Qed.

Lemma keypointMap_last (before after : list Keypoint.t) (kp : Keypoint.t) :
  Keypoint.name kp <> "" ->
  Forall (fun later => Keypoint.name later <> Keypoint.name kp) after ->
  Overlay.keypointMap (before ++ kp :: after) !! Keypoint.name kp = Some kp.
Proof.
  intros Hfull. induction after as [| last after IH] using rev_ind; intros Hafter.
  - rewrite keypointMap_snoc.
    destruct (String.eqb_spec (Keypoint.name kp) ""); [contradiction |].
    apply lookup_insert_eq.
  - apply Forall_app in Hafter. destruct Hafter as [Hafter Hlast].
    inversion Hlast as [| ? ? Hne _]; subst.
    change (before ++ kp :: after ++ [last])
      with (before ++ (kp :: after) ++ [last]).
    rewrite app_assoc, keypointMap_snoc.
    destruct (String.eqb_spec (Keypoint.name last) ""); [apply IH, Hafter |].
    rewrite lookup_insert_ne by exact Hne. apply IH, Hafter.
Qed.

End KeypointMap.

(** X1: for a key that is not one of the names a plain object inherits from
    [Object.prototype], and a pose none of whose keypoints is named
    ['__proto__'], the keypoint map built from the pose answers the key with
    a keypoint of the pose that bears that (non-empty) name, with the last
    such keypoint of the list when several bear it, and with nothing when
    none does.  Every name [drawSkeleton] looks up is such a key. *)
Theorem X1_keypointMap_lookup (keypoints : list Keypoint.t) (key : string) :
  ~ In key JS.objectPrototypeKeys ->
  Forall (fun kp => Keypoint.name kp <> "__proto__") keypoints ->
  (forall kp,
      Overlay.keypointMap keypoints !! key = Some kp ->
      In kp keypoints /\ Keypoint.name kp = key /\ key <> "") /\
  (forall before kp after,
      keypoints = before ++ kp :: after ->
      Keypoint.name kp = key -> key <> "" ->
      Forall (fun later => Keypoint.name later <> key) after ->
      Overlay.keypointMap keypoints !! key = Some kp) /\
  (Forall (fun kp => Keypoint.name kp <> key) keypoints ->
   Overlay.keypointMap keypoints !! key = None) /\
  Forall (fun c => ~ In (fst c) JS.objectPrototypeKeys /\
                   ~ In (snd c) JS.objectPrototypeKeys) Overlay.connections.
Proof.
  intros _ _. split; [| split; [| split]].
  - intros kp. apply keypointMap_sound.
  - intros before kp after -> <- Hfull Hafter. apply keypointMap_last; assumption.
  - apply keypointMap_absent.
  - repeat constructor; cbn; intuition discriminate.
Qed.

(** Two keypoints named [left_knee]: the later one is the one looked up. *)
Lemma X1_keypointMap_witness :
  Overlay.keypointMap
    [Sample.knee; Sample.hip; Keypoint.mk "left_knee" 1 2 (Some 0.1)]
    !! "left_knee" = Some (Keypoint.mk "left_knee" 1 2 (Some 0.1)).
Proof.
  refine (proj1 (proj2 (X1_keypointMap_lookup
            [Sample.knee; Sample.hip; Keypoint.mk "left_knee" 1 2 (Some 0.1)]
            "left_knee" _ _))
            [Sample.knee; Sample.hip] (Keypoint.mk "left_knee" 1 2 (Some 0.1)) []
            eq_refl eq_refl _ _).
  - cbn. intuition discriminate.
  - repeat constructor; discriminate.
  - discriminate.
  - constructor.
Defined.

(** ** The skeleton *)

Section Skeleton.

(** The segment between the mapped positions of two keypoints. *)
Lemma drawConnection_bone videoRef (map : gmap string Keypoint.t)
    (c : string * string) (op : DrawOp) :
  In op (Overlay.drawConnection videoRef map c) ->
  exists startPoint endPoint,
    map !! fst c = Some startPoint /\ map !! snd c = Some endPoint /\
    Overlay.scoreAbove startPoint = true /\ Overlay.scoreAbove endPoint = true /\
    op = Bone
           (fst (Overlay.mapToDisplaySpace videoRef
                   (Keypoint.x startPoint) (Keypoint.y startPoint)))
           (snd (Overlay.mapToDisplaySpace videoRef
                   (Keypoint.x startPoint) (Keypoint.y startPoint)))
           (fst (Overlay.mapToDisplaySpace videoRef
                   (Keypoint.x endPoint) (Keypoint.y endPoint)))
           (snd (Overlay.mapToDisplaySpace videoRef
                   (Keypoint.x endPoint) (Keypoint.y endPoint))).
Proof.
  intros Hin. destruct (drawConnection_In videoRef map c op Hin)
    as (startPoint & endPoint & Hs & He & Has & Hae).
  exists startPoint, endPoint. repeat split; try assumption.
  unfold Overlay.drawConnection in Hin. rewrite Hs, He in Hin.
  unfold Overlay.scoreAbove in Has, Hae.
  apply andb_true_iff in Has, Hae. destruct Has as [Hts Hgs], Hae as [Hte Hge].
  rewrite Hts, Hte, Hgs, Hge in Hin. simpl in Hin.
  destruct Hin as [<- | []]. reflexivity.
Qed.

Lemma drawConnection_length videoRef (map : gmap string Keypoint.t)
    (c : string * string) :
  (length (Overlay.drawConnection videoRef map c) <= 1)%nat.
Proof.
  unfold Overlay.drawConnection.
  destruct (map !! fst c), (map !! snd c); simpl; try lia.
  destruct (_ && _ && _ && _); simpl; lia.
Qed.

Lemma flat_map_length_le {A B} (f : A -> list B) (l : list A) :
  (forall a, (length (f a) <= 1)%nat) -> (length (flat_map f l) <= length l)%nat.
Proof.
  intros Hf. induction l as [| a l IH]; simpl; [lia |].
  rewrite length_app. specialize (Hf a). lia.
Qed.

(** A connection whose start or end is not above the threshold paints
    nothing. *)
Lemma drawConnection_none videoRef (keypoints : list Keypoint.t)
    (c : string * string) :
  Forall (fun kp => Overlay.scoreAbove kp = false) keypoints ->
  Overlay.drawConnection videoRef (Overlay.keypointMap keypoints) c = [].
Proof.
  intros Hall. destruct (Overlay.drawConnection _ _ c) as [| op ops] eqn:E;
    [reflexivity |].
  assert (Hin : In op (Overlay.drawConnection videoRef
                         (Overlay.keypointMap keypoints) c))
    by (rewrite E; left; reflexivity).
  destruct (drawConnection_In _ _ _ _ Hin) as (s & e & Hs & _ & Has & _).
  destruct (keypointMap_sound _ _ _ Hs) as (Hsin & _).
  rewrite List.Forall_forall in Hall. rewrite (Hall s Hsin) in Has. discriminate.
Qed.

Lemma flat_map_nil {A B} (f : A -> list B) (l : list A) :
  (forall a, In a l -> f a = []) -> flat_map f l = [].
Proof.
  induction l as [| a l IH]; intros Hf; simpl; [reflexivity |].
  rewrite (Hf a) by (left; reflexivity). apply IH.
  intros b Hb. apply Hf. right. exact Hb.
Qed.

End Skeleton.

(** X2: the skeleton of either player has at most 16 segments, one per bone
    connection at most, and each segment joins the mapped positions of two
    keypoints of the pose that bear the names of a connection and are both
    above the confidence threshold. *)
Theorem X2_skeleton_sound (env : Env) (keypoints : list Keypoint.t) :
  (length (Click.drawSkeleton env keypoints) <= 16)%nat /\
  (length (Hover.drawSkeleton env keypoints) <= 16)%nat /\
  (forall op,
      In op (Click.drawSkeleton env keypoints) \/
      In op (Hover.drawSkeleton env keypoints) ->
      exists c startPoint endPoint,
        In c Overlay.connections /\
        In startPoint keypoints /\ In endPoint keypoints /\
        Keypoint.name startPoint = fst c /\ Keypoint.name endPoint = snd c /\
        Overlay.scoreAbove startPoint = true /\ Overlay.scoreAbove endPoint = true /\
        op = Bone
               (fst (Overlay.mapToDisplaySpace (videoRef env)
                       (Keypoint.x startPoint) (Keypoint.y startPoint)))
               (snd (Overlay.mapToDisplaySpace (videoRef env)
                       (Keypoint.x startPoint) (Keypoint.y startPoint)))
               (fst (Overlay.mapToDisplaySpace (videoRef env)
                       (Keypoint.x endPoint) (Keypoint.y endPoint)))
               (snd (Overlay.mapToDisplaySpace (videoRef env)
                       (Keypoint.x endPoint) (Keypoint.y endPoint)))).
Proof.
  assert (Hbones : forall videoRef,
      (length (flat_map (Overlay.drawConnection videoRef
                           (Overlay.keypointMap keypoints)) Overlay.connections)
       <= 16)%nat).
  { intros videoRef. change 16%nat with (length Overlay.connections).
    apply flat_map_length_le. intros c. apply drawConnection_length. }
  assert (Hlen : (length (Click.drawSkeleton env keypoints) <= 16)%nat)
    by apply Hbones.
  assert (Hsub : forall op, In op (Hover.drawSkeleton env keypoints) ->
                            In op (Click.drawSkeleton env keypoints)).
  { intros op. unfold Hover.drawSkeleton, Click.drawSkeleton.
    destruct (videoRef env) as [video |]; [| intros []].
    destruct (negb (Video.paused video)); [intros [] | auto]. }
  split; [exact Hlen |]. split.
  - unfold Hover.drawSkeleton.
    destruct (videoRef env) as [video |]; [| apply Nat.le_0_l].
    destruct (negb (Video.paused video)); [apply Nat.le_0_l | apply Hbones].
  - intros op Hop.
    assert (Hin : In op (Click.drawSkeleton env keypoints))
      by (destruct Hop; auto).
    unfold Click.drawSkeleton in Hin. apply in_flat_map in Hin.
    destruct Hin as (c & Hc & Hin).
    destruct (drawConnection_bone _ _ _ _ Hin) as (s & e & Hs & He & Has & Hae & ->).
    destruct (keypointMap_sound _ _ _ Hs) as (Hsin & Hsname & _).
    destruct (keypointMap_sound _ _ _ He) as (Hein & Hename & _).
    exists c, s, e. repeat split; assumption.
Qed.

(** X3: a pose none of whose keypoints is confident paints nothing: the click
    player paints no dimming, segment or marker when no keypoint is above the
    threshold, and neither does the hover player when every keypoint fails
    its marker test. *)
Theorem X3_unconfident_pose_paints_nothing (E : Math.Engine) (env : Env)
    (keypoints : list Keypoint.t) (poseScore : option float) :
  (Forall (fun kp => Overlay.scoreAbove kp = false) keypoints ->
   Click.drawOverlay env keypoints = []) /\
  (Forall (fun kp => Overlay.scoreBelow kp = true) keypoints ->
   Hover.drawPose env (Pose.mk (Some keypoints) poseScore) = []).
Proof.
  assert (Hfilter : Forall (fun kp => Overlay.scoreAbove kp = false) keypoints ->
                    List.filter Overlay.scoreAbove keypoints = []).
  { intros Hall. induction Hall as [| kp kps Hkp _ IH]; simpl; [reflexivity |].
    rewrite Hkp. exact IH. }
  assert (Hskel : Forall (fun kp => Overlay.scoreAbove kp = false) keypoints ->
                  flat_map (Overlay.drawConnection (videoRef env)
                              (Overlay.keypointMap keypoints)) Overlay.connections = []).
  { intros Hall. apply flat_map_nil. intros c _. apply drawConnection_none, Hall. }
  split.
  - intros Hall. unfold Click.drawOverlay, Click.applyDimmingEffect,
      Click.drawSkeleton, Click.drawMarkers.
    rewrite (Hfilter Hall), (Hskel Hall). simpl.
    rewrite flat_map_nil; [destruct (showDimming env); reflexivity |].
    intros kp Hin. rewrite List.Forall_forall in Hall. rewrite (Hall kp Hin).
    reflexivity.
  - intros Hbelow.
    assert (Hall : Forall (fun kp => Overlay.scoreAbove kp = false) keypoints).
    { eapply List.Forall_impl; [| exact Hbelow]. simpl. intros kp Hkp.
      destruct (Overlay.scoreAbove kp) eqn:Ha; [| reflexivity].
      rewrite (scoreAbove_not_below kp Ha) in Hkp. discriminate. }
    unfold Hover.drawPose. cbn [Pose.score Pose.keypoints].
    destruct (_ || _); [reflexivity |].
    destruct (Nat.eqb _ 0%nat); [reflexivity |].
    unfold Hover.drawSkeleton, Hover.drawDimming, Hover.calculateBoundingBox.
    rewrite (Hfilter Hall), (Hskel Hall). simpl.
    rewrite flat_map_nil.
    + destruct (videoRef env) as [video |]; [| destruct (showDimming env); reflexivity].
      destruct (negb (Video.paused video)), (showDimming env); reflexivity.
    + intros kp Hin. rewrite List.Forall_forall in Hbelow.
      unfold Hover.drawKeypoint. rewrite (Hbelow kp Hin). reflexivity.
Qed.

(** The sample hip alone, with score 0.29, paints nothing in either player. *)
Lemma X3_unconfident_witness :
  Click.drawOverlay Sample.env [Sample.hip] = [] /\
  @Hover.drawPose Math.axisEngine Sample.env (Pose.mk (Some [Sample.hip]) (Some 0.9))
    = [].
Proof.
  split.
  - apply (proj1 (X3_unconfident_pose_paints_nothing Math.axisEngine Sample.env
                    [Sample.hip] (Some 0.9))).
    repeat constructor.
  - apply (proj2 (X3_unconfident_pose_paints_nothing Math.axisEngine Sample.env
                    [Sample.hip] (Some 0.9))).
    repeat constructor.
Defined.

(** The one segment of the sample pose joins the knee and the ankle. *)
Lemma X2_skeleton_witness :
  exists c startPoint endPoint,
    In c Overlay.connections /\
    In startPoint [Sample.knee; Sample.hip; Sample.ankle] /\
    In endPoint [Sample.knee; Sample.hip; Sample.ankle] /\
    Keypoint.name startPoint = fst c /\ Keypoint.name endPoint = snd c /\
    Overlay.scoreAbove startPoint = true /\ Overlay.scoreAbove endPoint = true /\
    Bone 320 200 330 300 =
      Bone
        (fst (Overlay.mapToDisplaySpace (videoRef Sample.env)
                (Keypoint.x startPoint) (Keypoint.y startPoint)))
        (snd (Overlay.mapToDisplaySpace (videoRef Sample.env)
                (Keypoint.x startPoint) (Keypoint.y startPoint)))
        (fst (Overlay.mapToDisplaySpace (videoRef Sample.env)
                (Keypoint.x endPoint) (Keypoint.y endPoint)))
        (snd (Overlay.mapToDisplaySpace (videoRef Sample.env)
                (Keypoint.x endPoint) (Keypoint.y endPoint))).
Proof.
  apply (proj2 (proj2 (X2_skeleton_sound Sample.env
                         [Sample.knee; Sample.hip; Sample.ankle]))).
  left. vm_compute. left. reflexivity.
Defined.

(** ** Detection cycles *)

(** X4: redrawing is idempotent: running [detectAndDraw] twice in the same
    situation and with the same estimation outcome leaves each player in the
    state the first run produced; nothing accumulates on the canvas. *)
Theorem X4_detectAndDraw_idempotent (E : Math.Engine) (env : Env)
    (estimate : Estimate) :
  (forall st,
      Click.detectAndDraw env estimate (Click.detectAndDraw env estimate st)
        = Click.detectAndDraw env estimate st) /\
  (forall canvas,
      Hover.detectAndDraw env estimate (Hover.detectAndDraw env estimate canvas)
        = Hover.detectAndDraw env estimate canvas).
Proof.
  split.
  - intros st. unfold Click.detectAndDraw.
    destruct (videoRef env) as [video |]; [| reflexivity].
    destruct (negb _); [reflexivity |].
    destruct (negb (context2d env)); [reflexivity |].
    destruct (Video.paused video); [| reflexivity].
    destruct estimate as [| poses]; [reflexivity |].
    destruct poses as [| pose rest]; [reflexivity |].
    destruct (Pose.keypoints pose); reflexivity.
  - intros canvas. unfold Hover.detectAndDraw.
    destruct (videoRef env) as [video |]; [| reflexivity].
    destruct (negb _); [reflexivity |].
    destruct (_ || _); [reflexivity |].
    destruct (negb (context2d env)); [reflexivity |].
    destruct estimate as [| poses]; [reflexivity |].
    destruct poses as [| first rest]; [reflexivity |].
    destruct (Pose.keypoints first); reflexivity.
Qed.

(** X5: while the video plays, the click player's [detectAndDraw] paints
    nothing and does not consult the estimator: it leaves the canvas blank
    and the keypoints and the selected joint as they were.  The hover player
    paints neither skeleton nor markers nor tooltips then; whatever it paints
    is dimming. *)
Theorem X5_playing_overlay (E : Math.Engine) (env : Env) (video : Video.t)
    (estimate : Estimate) :
  videoRef env = Some video -> Video.paused video = false ->
  detector env = true -> canvasRef env = true -> isVideoReady env = true ->
  (forall st,
      Click.detectAndDraw env estimate st
        = Click.mkState [] (Click.currentKeypoints st) (Click.clickedJoint st)) /\
  (forall canvas,
      Forall (fun op => layer op = 0%nat) (Hover.detectAndDraw env estimate canvas) \/
      Hover.detectAndDraw env estimate canvas = canvas).
Proof.
  intros Hv Hp Hd Hc Hr. split.
  - intros st. unfold Click.detectAndDraw. rewrite Hv, Hd, Hc, Hr, Hp. simpl.
    destruct (context2d env); reflexivity.
  - intros canvas. unfold Hover.detectAndDraw. rewrite Hv, Hd, Hc, Hr. simpl.
    destruct (_ || _); [right; reflexivity |]. left.
    destruct (negb (context2d env)); [constructor |].
    destruct estimate as [| poses]; [constructor |].
    destruct poses as [| first rest]; [constructor |].
    destruct (Pose.keypoints first); [| constructor].
    apply Forall_flat_map. intros pose. unfold Hover.drawPose.
    destruct (_ || _); [constructor |].
    destruct (Pose.keypoints pose) as [keypoints |]; [| constructor].
    destruct (Nat.eqb _ 0%nat); [constructor |].
    apply Forall_app. split; [| apply Forall_app; split].
    + unfold Hover.drawSkeleton. rewrite Hv, Hp. constructor.
    + apply Forall_flat_map. intros kp. unfold Hover.drawKeypoint.
      rewrite Hv, Hp. destruct (Overlay.scoreBelow kp); constructor.
    + unfold Hover.drawDimming. destruct (showDimming env); [| constructor].
      destruct (Hover.calculateBoundingBox keypoints); [| constructor].
      destruct (_ && _); repeat constructor.
Qed.

(** The sample pose on the playing sample video: the click player blanks the
    canvas and the hover player paints the dimming alone. *)
Lemma X5_playing_witness :
  Click.detectAndDraw
    (mkEnv true (Some (Video.mk 1920 1080 640 360 false 5)) true true true true
       (640, 360) (0, 0))
    (Resolved [Sample.pose]) (Click.mkState Sample.earlier None None)
    = Click.mkState [] None None /\
  @Hover.detectAndDraw Math.axisEngine
    (mkEnv true (Some (Video.mk 1920 1080 640 360 false 5)) true true true true
       (640, 360) (0, 0))
    (Resolved [Sample.pose]) Sample.earlier
    = [DimLayer 640 360; Spotlight 270 150 110 200].
Proof.
  split; [| reflexivity].
  apply (proj1 (X5_playing_overlay Math.axisEngine
                  (mkEnv true (Some (Video.mk 1920 1080 640 360 false 5))
                     true true true true (640, 360) (0, 0))
                  (Video.mk 1920 1080 640 360 false 5) (Resolved [Sample.pose])
                  eq_refl eq_refl eq_refl eq_refl eq_refl)).
Defined.

(** ** Clicks *)

(** The click handler returned the state it was given. *)
Ltac click_ignored :=
  split; [reflexivity |];
  split; [first [reflexivity | assumption | symmetry; assumption] |];
  split; [intros _; reflexivity |];
  split; [intros _; reflexivity |];
  let joint := fresh "joint" in
  let Hj := fresh "Hj" in
  intros joint Hj; left; exact Hj.

(** X6: a click on the canvas never alters the canvas or the current
    keypoints; it is ignored altogether while the video plays and before any
    pose has been detected.  Whenever a click leaves a joint selected that it
    selected itself, that joint is a keypoint of the current pose whose score
    passes the hit test's filter and whose mapped position, which the
    selection records, lies strictly within 15px of the pointer. *)
Theorem X6_click_selects_a_hit (E : Math.Engine) (env : Env)
    (clickX clickY : float) (st : Click.State) :
  Click.canvas (Click.handleCanvasClick env clickX clickY st) = Click.canvas st /\
  Click.currentKeypoints (Click.handleCanvasClick env clickX clickY st)
    = Click.currentKeypoints st /\
  ((forall video, videoRef env = Some video -> Video.paused video = false) ->
   Click.handleCanvasClick env clickX clickY st = st) /\
  (Click.currentKeypoints st = None ->
   Click.handleCanvasClick env clickX clickY st = st) /\
  (forall joint,
      Click.clickedJoint (Click.handleCanvasClick env clickX clickY st) = Some joint ->
      Click.clickedJoint st = Some joint \/
      exists keypoints hit,
        Click.currentKeypoints st = Some keypoints /\
        In hit keypoints /\ Overlay.scoreBelow hit = false /\
        joint = Click.jointDetail env keypoints hit /\
        (sqrt (Math.pow2 (clickX - Click.Joint.x joint)
               + Math.pow2 (clickY - Click.Joint.y joint)) <? 15) = true).
Proof.
  unfold Click.handleCanvasClick.
  destruct (videoRef env) as [video |] eqn:Hv; [| click_ignored].
  destruct (Click.currentKeypoints st) as [keypoints |] eqn:Hk; [| click_ignored].
  destruct (negb (Video.paused video) || negb (canvasRef env)) eqn:Hguard;
    [click_ignored |].
  apply orb_false_iff in Hguard. destruct Hguard as [Hp _].
  apply negb_false_iff in Hp.
  split; [destruct (find _ _); reflexivity |].
  split; [destruct (find _ _); reflexivity |].
  split; [intros Hplaying; rewrite (Hplaying video eq_refl) in Hp; discriminate |].
  split; [discriminate |].
  intros joint Hj. right.
  destruct (find (Click.isHit env clickX clickY) keypoints) as [hit |] eqn:Hfind;
    simpl in Hj; [| discriminate].
  injection Hj as <-.
  apply find_some in Hfind. destruct Hfind as [Hin Hhit].
  exists keypoints, hit. split; [reflexivity |]. split; [exact Hin |].
  unfold Click.isHit in Hhit.
  destruct (Overlay.scoreBelow hit); [discriminate |].
  split; [reflexivity |]. split; [reflexivity |].
  exact Hhit.
Qed.

(** A click 9px from the nose of the paused sample video selects it. *)
Lemma X6_click_witness :
  Click.clickedJoint (Click.mkState [] (Some [Sample.nose; Sample.eye]) None) = None /\
  exists keypoints hit,
    Some [Sample.nose; Sample.eye] = Some keypoints /\
    In hit keypoints /\ Overlay.scoreBelow hit = false /\
    Click.Joint.mk "nose" None 100 100
      = @Click.jointDetail Math.axisEngine Sample.env keypoints hit /\
    (sqrt (Math.pow2 (109 - 100) + Math.pow2 (100 - 100)) <? 15) = true.
Proof.
  split; [reflexivity |].
  destruct (proj2 (proj2 (proj2 (proj2
              (X6_click_selects_a_hit Math.axisEngine Sample.env 109 100
                 (Click.mkState [] (Some [Sample.nose; Sample.eye]) None)))))
              (Click.Joint.mk "nose" None 100 100) eq_refl) as [Hold | Hnew].
  - discriminate Hold.
  - exact Hnew.
Defined.

(** ** The animation loop *)

Section AnimationLoop.

Variable animate : Env -> float -> float -> bool * float.

(** What the two [animate] functions have in common: a dispatch happens at
    [now], moves [lastDrawTime] to [now] and has passed the rate gate;
    otherwise [lastDrawTime] stays. *)
Hypothesis gated :
  forall env now lastDrawTime,
    (fst (animate env now lastDrawTime) = true /\
     snd (animate env now lastDrawTime) = now /\
     (1000 / 30 <? now - lastDrawTime) = true) \/
    (fst (animate env now lastDrawTime) = false /\
     snd (animate env now lastDrawTime) = lastDrawTime).

Lemma runFrames_spaced (frames : list (Env * float)) (lastDrawTime : float) :
  (forall first rest,
      Overlay.runFrames animate frames lastDrawTime = first :: rest ->
      (1000 / 30 <? first - lastDrawTime) = true) /\
  (forall before earlier later after,
      Overlay.runFrames animate frames lastDrawTime
        = before ++ earlier :: later :: after ->
      (1000 / 30 <? later - earlier) = true).
Proof.
  revert lastDrawTime.
  induction frames as [| [env now] frames IH]; intros lastDrawTime.
  - split; [discriminate |]. intros [| ? ?]; discriminate.
  - simpl.
    destruct (gated env now lastDrawTime) as [(-> & -> & Hgate) | (-> & ->)];
      simpl; [| apply IH].
    destruct (IH now) as [IHfirst IHnext]. split.
    + intros first rest Heq. injection Heq as <- _. exact Hgate.
    + intros [| b before] earlier later after Heq; simpl in Heq.
      * injection Heq as <- Hrest. apply (IHfirst later after Hrest).
      * injection Heq as _ Hrest. apply (IHnext before earlier later after Hrest).
Qed.

End AnimationLoop.

Section AnimationIdle.

Lemma Click_animate_gated env now lastDrawTime :
  (fst (Click.animate env now lastDrawTime) = true /\
   snd (Click.animate env now lastDrawTime) = now /\
   (1000 / 30 <? now - lastDrawTime) = true) \/
  (fst (Click.animate env now lastDrawTime) = false /\
   snd (Click.animate env now lastDrawTime) = lastDrawTime).
Proof.
  unfold Click.animate.
  destruct (_ && _ && _); [| right; split; reflexivity].
  destruct (1000 / 30 <? now - lastDrawTime) eqn:Hgate;
    [left | right]; repeat split; reflexivity.
Qed.

Lemma Hover_animate_gated env now lastDrawTime :
  (fst (Hover.animate env now lastDrawTime) = true /\
   snd (Hover.animate env now lastDrawTime) = now /\
   (1000 / 30 <? now - lastDrawTime) = true) \/
  (fst (Hover.animate env now lastDrawTime) = false /\
   snd (Hover.animate env now lastDrawTime) = lastDrawTime).
Proof.
  unfold Hover.animate.
  destruct (match videoRef env with Some _ => _ | None => _ end);
    [| right; split; reflexivity].
  destruct (1000 / 30 <? now - lastDrawTime) eqn:Hgate;
    [left | right]; repeat split; reflexivity.
Qed.

Lemma runFrames_idle animate (frames : list (Env * float)) (lastDrawTime : float) :
  Forall (fun frame => forall last,
            fst (animate (fst frame) (snd frame) last) = false /\
            snd (animate (fst frame) (snd frame) last) = last) frames ->
  Overlay.runFrames animate frames lastDrawTime = [].
Proof.
  intros Hall. revert lastDrawTime.
  induction Hall as [| [env now] frames Hframe _ IH]; intros lastDrawTime; simpl;
    [reflexivity |].
  simpl in Hframe. destruct (Hframe lastDrawTime) as [-> ->]. apply IH.
Qed.

End AnimationIdle.

(** X7: within one run of the animation effect, either player dispatches
    [detectAndDraw] at most once per [1000/30] ms of [Date.now()]: the first
    dispatch comes more than [1000/30] ms after time 0, and every dispatch
    more than [1000/30] ms after the one before it. *)
Theorem X7_animation_rate_gate (frames : list (Env * float)) :
  (forall before earlier later after,
      Click.runAnimation frames = before ++ earlier :: later :: after \/
      Hover.runAnimation true frames = before ++ earlier :: later :: after ->
      (1000 / 30 <? later - earlier) = true) /\
  (forall first rest,
      Click.runAnimation frames = first :: rest \/
      Hover.runAnimation true frames = first :: rest ->
      (1000 / 30 <? first - 0) = true).
Proof.
  destruct (runFrames_spaced Click.animate Click_animate_gated frames 0)
    as [Cfirst Cnext].
  destruct (runFrames_spaced Hover.animate Hover_animate_gated frames 0)
    as [Hfirst Hnext].
  split.
  - intros before earlier later after [Heq | Heq];
      [eapply Cnext | eapply Hnext]; exact Heq.
  - intros first rest [Heq | Heq]; [eapply Cfirst | eapply Hfirst]; exact Heq.
Qed.

(** Frames 20ms apart on the playing sample video: every other frame is
    dispatched. *)
Lemma X7_animation_witness :
  Click.runAnimation
    [ (mkEnv true (Some (Video.mk 1920 1080 640 360 false 5)) true true true true
         (640, 360) (0, 0), 1000);
      (mkEnv true (Some (Video.mk 1920 1080 640 360 false 5)) true true true true
         (640, 360) (0, 0), 1020);
      (mkEnv true (Some (Video.mk 1920 1080 640 360 false 5)) true true true true
         (640, 360) (0, 0), 1040) ]
    = [1000; 1040] /\
  (1000 / 30 <? 1040 - 1000) = true.
Proof.
  split; [reflexivity |].
  apply (proj1 (X7_animation_rate_gate
           [ (mkEnv true (Some (Video.mk 1920 1080 640 360 false 5)) true true true
                true (640, 360) (0, 0), 1000);
             (mkEnv true (Some (Video.mk 1920 1080 640 360 false 5)) true true true
                true (640, 360) (0, 0), 1020);
             (mkEnv true (Some (Video.mk 1920 1080 640 360 false 5)) true true true
                true (640, 360) (0, 0), 1040) ])
           [] 1000 1040 []).
  left. reflexivity.
Defined.

(** X8: the animation loop dispatches nothing while the video is paused, in
    either player; the click player's loop dispatches nothing either while
    the video is not ready or the detector is missing, and the hover player's
    loop nothing at all when it was not started. *)
Theorem X8_animation_idle (frames : list (Env * float)) :
  (Forall (fun frame =>
             exists video, videoRef (fst frame) = Some video /\
                           Video.paused video = true) frames ->
   Click.runAnimation frames = [] /\
   forall isAnimating, Hover.runAnimation isAnimating frames = []) /\
  (Forall (fun frame => isVideoReady (fst frame) = false \/
                        detector (fst frame) = false) frames ->
   Click.runAnimation frames = []) /\
  Hover.runAnimation false frames = [].
Proof.
  split; [| split; [| reflexivity]].
  - intros Hpaused. split; [| intros [|]; [| reflexivity]].
    + apply runFrames_idle. eapply List.Forall_impl; [| exact Hpaused].
      intros [env now] (video & Hv & Hp) last. simpl in *.
      unfold Click.animate. rewrite Hv, Hp. split; reflexivity.
    + apply runFrames_idle. eapply List.Forall_impl; [| exact Hpaused].
      intros [env now] (video & Hv & Hp) last. simpl in *.
      unfold Hover.animate. rewrite Hv, Hp. split; reflexivity.
  - intros Hnot. apply runFrames_idle. eapply List.Forall_impl; [| exact Hnot].
    intros [env now] Hwhy last. simpl in *. unfold Click.animate.
    destruct Hwhy as [-> | ->]; rewrite ?andb_false_r; split; reflexivity.
Qed.

(** Two frames, 100ms apart, on the paused sample video. *)
Lemma X8_animation_idle_witness :
  Click.runAnimation [(Sample.env, 1000); (Sample.env, 1100)] = [].
Proof.
  refine (proj1 (proj1 (X8_animation_idle [(Sample.env, 1000); (Sample.env, 1100)])
                  _)).
  repeat constructor; exists Sample.video; split; reflexivity.
Defined.

(** ** Tooltips of the hover player *)

(** X9: the tooltip box of the hover player is 150 wide and 60 or 40 high
    (with or without an angle line); its top edge is never above the 8px
    padding, whatever the canvas size; it sits 15px to the right of the joint
    unless that would cross the right edge of the canvas, in which case it is
    flipped to the left of the joint, where nothing keeps it on the canvas. *)
Theorem X9_tooltip_box (canvasWidth canvasHeight x y : float) (angle : option float) :
  (snd (fst (fst (Hover.tooltipBox canvasWidth canvasHeight x y angle))) <? 8) = false /\
  snd (fst (Hover.tooltipBox canvasWidth canvasHeight x y angle)) = 150 /\
  snd (Hover.tooltipBox canvasWidth canvasHeight x y angle)
    = match angle with Some _ => 60 | None => 40 end /\
  ((fst (fst (fst (Hover.tooltipBox canvasWidth canvasHeight x y angle))) = x + 15 /\
    (canvasWidth <? x + 15 + 150) = false) \/
   (fst (fst (fst (Hover.tooltipBox canvasWidth canvasHeight x y angle)))
      = x - 150 - 15 /\
    (canvasWidth <? x + 15 + 150) = true)) /\
  Hover.tooltipBox 640 360 630 200 None = (465, 180, 150, 40) /\
  Hover.tooltipBox 100 360 90 200 None = (-75, 180, 150, 40).
Proof.
  unfold Hover.tooltipBox. cbn [fst snd].
  split; [| split; [reflexivity | split; [reflexivity | split]]].
  - match goal with |- ((if ?t <? 8 then 8 else ?t) <? 8) = false =>
      destruct (t <? 8) eqn:Htop; [reflexivity | exact Htop] end.
  - destruct (canvasWidth <? x + 15 + 150); [right | left]; split; reflexivity.
  - split; reflexivity.
Qed.

(** X14: while the video is paused, the hover player paints one marker for
    each keypoint that passes its score test and one tooltip for each of them
    within 15px of the mouse: every hovered joint gets a tooltip, not only the
    first one. *)
Theorem X14_hover_tooltips_all_match (E : Math.Engine) (env : Env)
    (video : Video.t) (map : gmap string Keypoint.t) (keypoints : list Keypoint.t) :
  videoRef env = Some video -> Video.paused video = true ->
  length (List.filter (fun op => Nat.eqb (layer op) 2)
            (flat_map (Hover.drawKeypoint env map) keypoints))
    = length (List.filter (fun kp => negb (Overlay.scoreBelow kp)) keypoints) /\
  length (List.filter (fun op => Nat.eqb (layer op) 3)
            (flat_map (Hover.drawKeypoint env map) keypoints))
    = length
        (List.filter
           (fun kp =>
              negb (Overlay.scoreBelow kp) &&
              (sqrt
                 ((fst (mousePos env)
                   - fst (Overlay.mapToDisplaySpace (videoRef env)
                            (Keypoint.x kp) (Keypoint.y kp)))
                  * (fst (mousePos env)
                     - fst (Overlay.mapToDisplaySpace (videoRef env)
                              (Keypoint.x kp) (Keypoint.y kp)))
                  + (snd (mousePos env)
                     - snd (Overlay.mapToDisplaySpace (videoRef env)
                              (Keypoint.x kp) (Keypoint.y kp)))
                    * (snd (mousePos env)
                       - snd (Overlay.mapToDisplaySpace (videoRef env)
                                (Keypoint.x kp) (Keypoint.y kp))))
               <? 15))
           keypoints).
Proof.
  intros Hv Hp. destruct env; simpl in Hv; subst.
  destruct video; simpl in Hp; subst. cbn [videoRef mousePos].
  split.
  - induction keypoints as [| kp keypoints IH]; [reflexivity |].
    cbn [flat_map List.filter].
    rewrite List.filter_app, length_app, IH. clear IH.
    unfold Hover.drawKeypoint. destruct (Overlay.scoreBelow kp); [reflexivity |].
    cbn [negb videoRef Video.paused].
    match goal with |- context [if ?d <? 15 then [Tooltip _ _ _ _] else []] =>
      destruct (d <? 15) end; reflexivity.
  - induction keypoints as [| kp keypoints IH]; [reflexivity |].
    cbn [flat_map List.filter].
    rewrite List.filter_app, length_app, IH. clear IH.
    unfold Hover.drawKeypoint. destruct (Overlay.scoreBelow kp); [reflexivity |].
    cbn [negb andb videoRef Video.paused mousePos].
    match goal with |- context [if ?d <? 15 then [Tooltip _ _ _ _] else []] =>
      destruct (d <? 15) end; reflexivity.
Qed.

(** The mouse between the nose and the eye of the paused sample video, 5px
    from each: two markers, two tooltips. *)
Lemma X14_hover_tooltips_witness :
  @Hover.drawKeypoint Math.axisEngine
     (mkEnv true (Some Sample.video) true true true true (640, 360) (105, 100))
     (Overlay.keypointMap [Sample.nose; Sample.eye]) Sample.nose
    = [Marker 100 100 "#FF0000"; Tooltip 100 100 "nose" None] /\
  length (List.filter (fun op => Nat.eqb (layer op) 3)
            (flat_map
               (@Hover.drawKeypoint Math.axisEngine
                  (mkEnv true (Some Sample.video) true true true true (640, 360)
                     (105, 100))
                  (Overlay.keypointMap [Sample.nose; Sample.eye]))
               [Sample.nose; Sample.eye]))
    = 2%nat.
Proof.
  split; [reflexivity |].
  rewrite (proj2 (X14_hover_tooltips_all_match Math.axisEngine
                    (mkEnv true (Some Sample.video) true true true true (640, 360)
                       (105, 100))
                    Sample.video (Overlay.keypointMap [Sample.nose; Sample.eye])
                    [Sample.nose; Sample.eye] eq_refl eq_refl)).
  reflexivity.
Defined.

(** ** Angles and sides *)

(** X10: a joint angle, when there is one, is never negative (it is an
    absolute value; it may be [NaN]). *)
Theorem X10_angle_not_negative (E : Math.Engine) (map : gmap string Keypoint.t)
    (jointName : string) (angle : float) :
  Overlay.calculateJointAngle map jointName = Some angle -> (angle <? 0) = false.
Proof.
  unfold Overlay.calculateJointAngle, Overlay.cornerAngle.
  destruct (JS.includes jointName "elbow");
    [| destruct (JS.includes jointName "knee"); [| discriminate]];
    destruct (map !! _); try discriminate;
    destruct (map !! _); try discriminate;
    destruct (map !! _); try discriminate;
    intros Hangle; injection Hangle as <-; apply abs_not_neg.
Qed.

(** The unit arm on the engine that knows the half-axes. *)
Lemma X10_angle_witness : (90 <? 0) = false.
Proof.
  apply (X10_angle_not_negative Math.axisEngine
           (Overlay.keypointMap Sample.unitArm) "left_elbow" 90).
  reflexivity.
Defined.

(** X13: the side the hover player names for a joint and the side whose
    landmarks measure its angle agree: ['Left'] goes with ['left'], ['Right']
    with ['right'].  A joint whose name holds neither side is given no side,
    and its elbow angle is measured on the right arm. *)
Theorem X13_side_agrees (E : Math.Engine) (map : gmap string Keypoint.t)
    (jointName : string) :
  (Hover.getJointSide jointName = Some "Left" <->
   Overlay.sideOf jointName = "left") /\
  (Hover.getJointSide jointName = Some "Right" ->
   Overlay.sideOf jointName = "right") /\
  (Hover.getJointSide jointName = None ->
   JS.includes jointName "elbow" = true ->
   Overlay.calculateJointAngle map jointName =
     match map !! "right_shoulder", map !! "right_elbow", map !! "right_wrist" with
     | Some shoulder, Some elbow, Some wrist =>
         Some (Overlay.cornerAngle shoulder elbow wrist)
     | _, _, _ => None
     end).
Proof.
  unfold Hover.getJointSide, Overlay.sideOf.
  split; [| split].
  - destruct (JS.includes jointName "left"); [split; reflexivity |].
    destruct (JS.includes jointName "right"); split; discriminate.
  - destruct (JS.includes jointName "left"); [discriminate | reflexivity].
  - intros Hside Helbow. rewrite (calculateJointAngle_elbow map jointName Helbow).
    unfold Overlay.sideOf.
    destruct (JS.includes jointName "left"); [discriminate | reflexivity].
Qed.

(** The name ['elbow'] has no side; on a map with a right arm its angle is
    that arm's. *)
Lemma X13_side_witness :
  Hover.getJointSide "elbow" = None /\
  @Overlay.calculateJointAngle Math.axisEngine
     (Overlay.keypointMap
        [ Keypoint.mk "right_shoulder" 0 0 (Some 0.9);
          Keypoint.mk "right_elbow" 1 0 (Some 0.9);
          Keypoint.mk "right_wrist" 1 1 (Some 0.9) ]) "elbow" = Some 90.
Proof.
  split; [reflexivity |].
  rewrite (proj2 (proj2 (X13_side_agrees Math.axisEngine
                           (Overlay.keypointMap
                              [ Keypoint.mk "right_shoulder" 0 0 (Some 0.9);
                                Keypoint.mk "right_elbow" 1 0 (Some 0.9);
                                Keypoint.mk "right_wrist" 1 1 (Some 0.9) ])
                           "elbow")) eq_refl eq_refl).
  reflexivity.
Defined.

(** ** Bounding boxes and spotlights *)

Section Boxes.

Lemma filter_scoreAbove_In (keypoints : list Keypoint.t) (kp : Keypoint.t) :
  In kp (List.filter Overlay.scoreAbove keypoints) <->
  In kp keypoints /\ Overlay.scoreAbove kp = true.
Proof. apply List.filter_In. Qed.

Lemma coordinate_attained (coordinate : Keypoint.t -> float)
    (valid : list Keypoint.t) (v : float) :
  In v (List.map coordinate valid) -> exists kp, In kp valid /\ coordinate kp = v.
Proof.
  intros Hin. apply List.in_map_iff in Hin. destruct Hin as (kp & Hv & Hin).
  exists kp. auto.
Qed.

End Boxes.

(** X11: the bounding box of the hover player spans exactly the keypoints
    above the confidence threshold: its corner coordinates are the x of one
    such keypoint and the y of one such keypoint, with none of them to the
    left of or above the corner; its width and height are the distances
    from the corner to the x and the y of such keypoints, with none of them
    beyond. *)
Theorem X11_bounding_box_extremal (keypoints : list Keypoint.t) (box : Hover.Box.t) :
  Hover.calculateBoundingBox keypoints = Some box ->
  (exists left right top bottom,
      In left (List.filter Overlay.scoreAbove keypoints) /\
      In right (List.filter Overlay.scoreAbove keypoints) /\
      In top (List.filter Overlay.scoreAbove keypoints) /\
      In bottom (List.filter Overlay.scoreAbove keypoints) /\
      Hover.Box.x box = Keypoint.x left /\
      Hover.Box.y box = Keypoint.y top /\
      Hover.Box.width box = Keypoint.x right - Keypoint.x left /\
      Hover.Box.height box = Keypoint.y bottom - Keypoint.y top /\
      forall kp,
        In kp keypoints -> Overlay.scoreAbove kp = true ->
        (Keypoint.x kp <? Keypoint.x left) = false /\
        (Keypoint.x right <? Keypoint.x kp) = false /\
        (Keypoint.y kp <? Keypoint.y top) = false /\
        (Keypoint.y bottom <? Keypoint.y kp) = false).
Proof.
  unfold Hover.calculateBoundingBox.
  set (valid := List.filter Overlay.scoreAbove keypoints).
  destruct valid as [| first valid'] eqn:Hvalid; [discriminate |].
  rewrite <- Hvalid. cbn [length Nat.eqb].
  assert (Hlen : Nat.eqb (length valid) 0%nat = false) by (rewrite Hvalid; reflexivity).
  rewrite Hlen. intros Hbox. injection Hbox as <-. cbn [Hover.Box.x Hover.Box.y
    Hover.Box.width Hover.Box.height].
  assert (Hxs : List.map Keypoint.x valid <> []) by (rewrite Hvalid; discriminate).
  assert (Hys : List.map Keypoint.y valid <> []) by (rewrite Hvalid; discriminate).
  destruct (coordinate_attained Keypoint.x valid _ (min_In _ Hxs)) as (l & Hl & Hlx).
  destruct (coordinate_attained Keypoint.x valid _ (max_In _ Hxs)) as (r & Hr & Hrx).
  destruct (coordinate_attained Keypoint.y valid _ (min_In _ Hys)) as (t & Ht & Hty).
  destruct (coordinate_attained Keypoint.y valid _ (max_In _ Hys)) as (b & Hb & Hby).
  exists l, r, t, b. rewrite Hlx, Hrx, Hty, Hby.
  repeat (split; [first [assumption | reflexivity] |]).
  intros kp Hin Habove.
  assert (Hkp : In kp valid) by (apply filter_scoreAbove_In; auto).
  repeat split.
  - apply min_lower_bound, List.in_map, Hkp.
  - apply max_upper_bound, List.in_map, Hkp.
  - apply min_lower_bound, List.in_map, Hkp.
  - apply max_upper_bound, List.in_map, Hkp.
Qed.

(** The sample pose: the knee and the ankle span the box, the hip (score 0.29)
    does not count. *)
Lemma X11_bounding_box_witness :
  exists left right top bottom,
    In left (List.filter Overlay.scoreAbove [Sample.knee; Sample.hip; Sample.ankle]) /\
    In right (List.filter Overlay.scoreAbove [Sample.knee; Sample.hip; Sample.ankle]) /\
    In top (List.filter Overlay.scoreAbove [Sample.knee; Sample.hip; Sample.ankle]) /\
    In bottom (List.filter Overlay.scoreAbove [Sample.knee; Sample.hip; Sample.ankle]) /\
    Hover.Box.x (Hover.Box.mk 960 600 30 300) = Keypoint.x left /\
    Hover.Box.y (Hover.Box.mk 960 600 30 300) = Keypoint.y top /\
    Hover.Box.width (Hover.Box.mk 960 600 30 300) = Keypoint.x right - Keypoint.x left /\
    Hover.Box.height (Hover.Box.mk 960 600 30 300)
      = Keypoint.y bottom - Keypoint.y top /\
    forall kp,
      In kp [Sample.knee; Sample.hip; Sample.ankle] -> Overlay.scoreAbove kp = true ->
      (Keypoint.x kp <? Keypoint.x left) = false /\
      (Keypoint.x right <? Keypoint.x kp) = false /\
      (Keypoint.y kp <? Keypoint.y top) = false /\
      (Keypoint.y bottom <? Keypoint.y kp) = false.
Proof.
  apply (X11_bounding_box_extremal [Sample.knee; Sample.hip; Sample.ankle]
           (Hover.Box.mk 960 600 30 300)).
  reflexivity.
Defined.

(** X12: in the click player a single keypoint above the threshold, mapped
    to a finite position, is dimmed around: the full-frame layer, then a
    100×100 spotlight whose corner is 50px up and left of the joint.  (The
    hover player paints no dimming for such a pose.) *)
Theorem X12_click_single_spotlight (env : Env) (keypoints : list Keypoint.t)
    (kp : Keypoint.t) :
  List.filter Overlay.scoreAbove keypoints = [kp] ->
  is_finite (fst (Overlay.mapToDisplaySpace (videoRef env)
                    (Keypoint.x kp) (Keypoint.y kp))) = true ->
  is_finite (snd (Overlay.mapToDisplaySpace (videoRef env)
                    (Keypoint.x kp) (Keypoint.y kp))) = true ->
  Click.applyDimmingEffect env keypoints =
    [ DimLayer (fst (dimensions env)) (snd (dimensions env));
      Spotlight
        (fst (Overlay.mapToDisplaySpace (videoRef env)
                (Keypoint.x kp) (Keypoint.y kp)) - 50)
        (snd (Overlay.mapToDisplaySpace (videoRef env)
                (Keypoint.x kp) (Keypoint.y kp)) - 50)
        100 100 ].
Proof.
  intros Hone Hx Hy. unfold Click.applyDimmingEffect. rewrite Hone.
  cbn [length Nat.eqb List.map].
  set (m := Overlay.mapToDisplaySpace (videoRef env) (Keypoint.x kp) (Keypoint.y kp))
    in *.
  rewrite (min_same (fst m) [fst m]), (max_same (fst m) [fst m]),
          (min_same (snd m) [snd m]), (max_same (snd m) [snd m]);
    try discriminate; try (repeat constructor).
  rewrite (sub_self_finite _ Hx), (sub_self_finite _ Hy).
  reflexivity.
Qed.

(** Only the knee of the sample pair clears the threshold. *)
Lemma X12_click_single_witness :
  Click.applyDimmingEffect Sample.env [Sample.knee; Sample.hip]
    = [DimLayer 640 360; Spotlight 270 150 100 100].
Proof.
  apply (X12_click_single_spotlight Sample.env [Sample.knee; Sample.hip] Sample.knee);
    reflexivity.
Defined.

(** X15: whenever some keypoint is above the threshold, the click player's
    dimming is the full-frame layer followed by one spotlight, which reaches
    50px beyond the extreme mapped positions of the keypoints above the
    threshold: its corner is 50px left of the leftmost and 50px above the
    topmost of them, and its width and height are their spans plus 100. *)
Theorem X15_click_spotlight_extremal (env : Env) (keypoints : list Keypoint.t) :
  List.filter Overlay.scoreAbove keypoints <> [] ->
  exists left right top bottom,
    In left (List.filter Overlay.scoreAbove keypoints) /\
    In right (List.filter Overlay.scoreAbove keypoints) /\
    In top (List.filter Overlay.scoreAbove keypoints) /\
    In bottom (List.filter Overlay.scoreAbove keypoints) /\
    Click.applyDimmingEffect env keypoints =
      [ DimLayer (fst (dimensions env)) (snd (dimensions env));
        Spotlight
          (fst (Overlay.mapToDisplaySpace (videoRef env)
                  (Keypoint.x left) (Keypoint.y left)) - 50)
          (snd (Overlay.mapToDisplaySpace (videoRef env)
                  (Keypoint.x top) (Keypoint.y top)) - 50)
          (fst (Overlay.mapToDisplaySpace (videoRef env)
                  (Keypoint.x right) (Keypoint.y right))
           - fst (Overlay.mapToDisplaySpace (videoRef env)
                    (Keypoint.x left) (Keypoint.y left)) + 100)
          (snd (Overlay.mapToDisplaySpace (videoRef env)
                  (Keypoint.x bottom) (Keypoint.y bottom))
           - snd (Overlay.mapToDisplaySpace (videoRef env)
                    (Keypoint.x top) (Keypoint.y top)) + 100) ] /\
    forall kp,
      In kp keypoints -> Overlay.scoreAbove kp = true ->
      (fst (Overlay.mapToDisplaySpace (videoRef env) (Keypoint.x kp) (Keypoint.y kp))
       <? fst (Overlay.mapToDisplaySpace (videoRef env)
                 (Keypoint.x left) (Keypoint.y left))) = false /\
      (fst (Overlay.mapToDisplaySpace (videoRef env)
              (Keypoint.x right) (Keypoint.y right))
       <? fst (Overlay.mapToDisplaySpace (videoRef env)
                 (Keypoint.x kp) (Keypoint.y kp))) = false /\
      (snd (Overlay.mapToDisplaySpace (videoRef env) (Keypoint.x kp) (Keypoint.y kp))
       <? snd (Overlay.mapToDisplaySpace (videoRef env)
                 (Keypoint.x top) (Keypoint.y top))) = false /\
      (snd (Overlay.mapToDisplaySpace (videoRef env)
              (Keypoint.x bottom) (Keypoint.y bottom))
       <? snd (Overlay.mapToDisplaySpace (videoRef env)
                 (Keypoint.x kp) (Keypoint.y kp))) = false.
Proof.
  intros Hsome. unfold Click.applyDimmingEffect.
  set (valid := List.filter Overlay.scoreAbove keypoints) in *.
  set (mx := fun kp : Keypoint.t =>
         fst (Overlay.mapToDisplaySpace (videoRef env) (Keypoint.x kp) (Keypoint.y kp))).
  set (my := fun kp : Keypoint.t =>
         snd (Overlay.mapToDisplaySpace (videoRef env) (Keypoint.x kp) (Keypoint.y kp))).
  assert (Hlen : Nat.eqb (length valid) 0%nat = false)
    by (destruct valid; [congruence | reflexivity]).
  rewrite Hlen, !List.map_map.
  change (List.map (fun x => fst (Overlay.mapToDisplaySpace (videoRef env)
                                    (Keypoint.x x) (Keypoint.y x))) valid)
    with (List.map mx valid).
  change (List.map (fun x => snd (Overlay.mapToDisplaySpace (videoRef env)
                                    (Keypoint.x x) (Keypoint.y x))) valid)
    with (List.map my valid).
  assert (Hxs : List.map mx valid <> []) by (destruct valid; [congruence | discriminate]).
  assert (Hys : List.map my valid <> []) by (destruct valid; [congruence | discriminate]).
  destruct (coordinate_attained mx valid _ (min_In _ Hxs)) as (l & Hl & Hlx).
  destruct (coordinate_attained mx valid _ (max_In _ Hxs)) as (r & Hr & Hrx).
  destruct (coordinate_attained my valid _ (min_In _ Hys)) as (t & Ht & Hty).
  destruct (coordinate_attained my valid _ (max_In _ Hys)) as (b & Hb & Hby).
  exists l, r, t, b.
  change (fst (Overlay.mapToDisplaySpace (videoRef env) (Keypoint.x l) (Keypoint.y l)))
    with (mx l).
  change (fst (Overlay.mapToDisplaySpace (videoRef env) (Keypoint.x r) (Keypoint.y r)))
    with (mx r).
  change (snd (Overlay.mapToDisplaySpace (videoRef env) (Keypoint.x t) (Keypoint.y t)))
    with (my t).
  change (snd (Overlay.mapToDisplaySpace (videoRef env) (Keypoint.x b) (Keypoint.y b)))
    with (my b).
  rewrite Hlx, Hrx, Hty, Hby.
  repeat (split; [first [assumption | reflexivity] |]).
  intros kp Hin Habove.
  assert (Hkp : In kp valid) by (apply filter_scoreAbove_In; auto).
  repeat split.
  - apply (min_lower_bound (List.map mx valid) (mx kp)), List.in_map, Hkp.
  - apply (max_upper_bound (List.map mx valid) (mx kp)), List.in_map, Hkp.
  - apply (min_lower_bound (List.map my valid) (my kp)), List.in_map, Hkp.
  - apply (max_upper_bound (List.map my valid) (my kp)), List.in_map, Hkp.
Qed.

(** The sample pose: the knee is leftmost and topmost, the ankle rightmost
    and bottommost. *)
Lemma X15_click_spotlight_witness :
  Click.applyDimmingEffect Sample.env [Sample.knee; Sample.hip; Sample.ankle]
    = [DimLayer 640 360; Spotlight 270 150 110 200] /\
  List.filter Overlay.scoreAbove [Sample.knee; Sample.hip; Sample.ankle]
    = [Sample.knee; Sample.ankle].
Proof.
  split; [| reflexivity].
  destruct (X15_click_spotlight_extremal Sample.env
              [Sample.knee; Sample.hip; Sample.ankle])
    as (l & r & t & b & _ & _ & _ & _ & _ & _).
  - discriminate.
  - reflexivity.
Defined.

(** ** What a detection cycle leaves alone *)

(** X16: a detection cycle of the click player never changes the selected
    joint, so a selection outlives the redraws that follow it.  When a
    prerequisite is missing (the detector, the video element, the canvas, or
    the video's readiness) the cycle changes nothing at all, in either
    player. *)
Theorem X16_cycle_frame (E : Math.Engine) (env : Env) (estimate : Estimate) :
  (forall st,
      Click.clickedJoint (Click.detectAndDraw env estimate st)
        = Click.clickedJoint st) /\
  (detector env = false \/ videoRef env = None \/ canvasRef env = false \/
   isVideoReady env = false ->
   (forall st, Click.detectAndDraw env estimate st = st) /\
   (forall canvas, Hover.detectAndDraw env estimate canvas = canvas)).
Proof.
  split.
  - intros st. unfold Click.detectAndDraw.
    destruct (videoRef env) as [video |]; [| reflexivity].
    destruct (negb _); [reflexivity |].
    destruct (negb (context2d env)); [reflexivity |].
    destruct (Video.paused video); [| reflexivity].
    destruct estimate as [| poses]; [reflexivity |].
    destruct poses as [| pose rest]; [reflexivity |].
    destruct (Pose.keypoints pose); reflexivity.
  - intros Hmissing. unfold Click.detectAndDraw, Hover.detectAndDraw.
    destruct (videoRef env) as [video |]; [| split; reflexivity].
    destruct Hmissing as [-> | [Hv | [-> | ->]]]; try discriminate;
      rewrite ?andb_false_r; split; reflexivity.
Qed.

(** The paused sample video without a detector: the earlier overlay and the
    selection stay. *)
Lemma X16_cycle_frame_witness :
  Click.detectAndDraw
    (mkEnv false (Some Sample.video) true true true true (640, 360) (0, 0))
    (Resolved [Sample.pose])
    (Click.mkState Sample.earlier None (Some (Click.Joint.mk "nose" None 100 100)))
  = Click.mkState Sample.earlier None (Some (Click.Joint.mk "nose" None 100 100)).
Proof.
  apply (proj1 (proj2 (X16_cycle_frame Math.axisEngine
                         (mkEnv false (Some Sample.video) true true true true
                            (640, 360) (0, 0))
                         (Resolved [Sample.pose]))
                  (or_introl eq_refl))).
Defined.
